(** * The Beget provider of ddns-updater

    A shallow embedding of [internal/provider/providers/beget/provider.go]:
    the constructor [New], the authenticated GET helper [apiCall] and the
    two-phase [Update] (getData, then changeRecords).

    Go strings and byte slices are both sequences of bytes; they are modelled
    by [string], so that the conversions [string(b)] and [[]byte(s)] are the
    identity.  Go's [int] is modelled by [Z]: the provider performs no
    arithmetic on it.  Packages the provider imports (encoding/json, net/http,
    net/url, net/netip and the sibling packages utils, headers and errors) are
    interfaces of this development: type classes whose methods the provider
    calls, instantiated by a test double at the end of the file. *)

From Stdlib Require Import Ascii String.
From stdpp Require Import base strings gmap list sorting pretty.

Local Open Scope string_scope.
Local Open Scope Z_scope.

(** [[]byte] and [json.RawMessage]. *)
Abbreviation bytes := string (only parsing).
Abbreviation RawMessage := string (only parsing).

(** ** Errors *)

Module errors.

(** Go error values: the sentinel of the provider errors package, an error
    made by a library or by [fmt.Errorf] without [%w] (it wraps nothing), and
    an error made by [fmt.Errorf] with one or more [%w] verbs. *)
#[local] Unset Elimination Schemes.
Inductive error : Type :=
| ErrDomainNotValid
| errorString (text : string)
| wrapError (msg : string) (errs : list error).
#[local] Set Elimination Schemes.

Fixpoint error_eqb (a b : error) {struct a} : bool :=
  match a, b with
  | ErrDomainNotValid, ErrDomainNotValid => true
  | errorString s, errorString t => bool_decide (s = t)
  | wrapError s l, wrapError t k =>
      bool_decide (s = t) &&
      (fix all2 (l k : list error) {struct l} : bool :=
         match l, k with
         | [], [] => true
         | x :: l', y :: k' => error_eqb x y && all2 l' k'
         | _, _ => false
         end) l k
  | _, _ => false
  end.

(** [errors.Is]: [err] is [target], or one of the errors it wraps is. *)
Fixpoint Is (err target : error) {struct err} : bool :=
  error_eqb err target ||
  match err with
  | wrapError _ errs =>
      (fix any (l : list error) : bool :=
         match l with
         | [] => false
         | e :: l' => Is e target || any l'
         end) errs
  | _ => false
  end.

Section Text.

(** The message of the sentinel is declared in the errors package. *)
Variable errDomainNotValidText : string.

(** The [Error()] method. *)
Definition Error (e : error) : string :=
  match e with
  | ErrDomainNotValid => errDomainNotValidText
  | errorString s => s
  | wrapError s _ => s
  end.

End Text.

(** Induction over the wrapped errors as well. *)
Fixpoint error_nested_ind (P : error -> Prop)
  (h0 : P ErrDomainNotValid)
  (h1 : forall s, P (errorString s))
  (h2 : forall s l, Forall P l -> P (wrapError s l))
  (e : error) {struct e} : P e :=
  match e with
  | ErrDomainNotValid => h0
  | errorString s => h1 s
  | wrapError s l =>
      h2 s l
        ((fix go (l : list error) : Forall P l :=
            match l with
            | [] => Forall_nil_2 P
            | x :: l' =>
                Forall_cons_2 P x l' (error_nested_ind P h0 h1 h2 x) (go l')
            end) l)
  end.

End errors.

Export errors.

(** ** Library interfaces *)

(** net/url. *)
Module url.

(** [url.Values] is [map[string][]string]. *)
Abbreviation Values := (gmap string (list string)).

(** [Values.Set] (and [http.Header.Set]): the key now holds the one value. *)
Definition Values_Set (v : Values) (key value : string) : Values :=
  <[key := [value]]> v.

(** The fields of [url.URL] the provider fills in. *)
Record URL : Type := {
  Scheme : string;
  Host : string;
  Path : string;
  RawQuery : string;
}.

(** [Values_Encode] is [Values.Encode].  [Parse_error u] is the error, if
    any, of [url.Parse] on the rendering [u.String()]. *)
Class Lib : Type := {
  Values_Encode : Values -> string;
  Parse_error : URL -> option error;
}.

End url.
Export url.

(** net/http. *)
Module http.

Definition MethodGet : string := "GET".
Definition StatusOK : Z := 200.

(** An [http.Request]: its URL is kept as the [url.URL] whose rendering was
    given to the constructor. *)
Record Request : Type := {
  Method : string;
  Url : URL;
  Header : gmap string (list string);
  Body : option bytes;
}.

(** An [http.Response] as the provider consumes it: the status code and the
    result of [io.ReadAll] on the body. *)
Record Response : Type := {
  StatusCode : Z;
  ReadAll_Body : error + bytes;
}.

(** [http.NewRequestWithContext] with a live context and a valid method
    fails exactly when the URL does not parse. *)
Definition NewRequestWithContext `{!url.Lib}
    (method : string) (u : URL) (body : option bytes) : error + Request :=
  match Parse_error u with
  | Some err => inl err
  | None => inr {| Method := method; Url := u; Header := ∅; Body := body |}
  end.

(** The [Do] method of an [http.Client], over the state of the outside
    world: the call may fail (network failure, cancelled context) or produce
    a response. *)
Definition Client (World : Type) : Type :=
  Request -> World -> (error + Response) * World.

End http.
Export http.

(** encoding/json, for one Go type. *)
Class JSON (T : Type) : Type := {
  Marshal : T -> error + bytes;
  Unmarshal : bytes -> error + T;
}.

(** net/netip: [zeroAddr] is [netip.Addr{}]. *)
Class Netip (Addr : Type) : Type := {
  zeroAddr : Addr;
  IsValid : Addr -> bool;
  Addr_String : Addr -> string;
  IsValid_zeroAddr : IsValid zeroAddr = false;
}.

(** The sibling packages of the provider that are part of ddns-updater:
    [utils.CheckDomain], the user agent set by [headers.SetUserAgent] and the
    message of [errors.ErrDomainNotValid]. *)
Class Upstream : Type := {
  CheckDomain : string -> option error;
  userAgent : string;
  errDomainNotValidText : string;
}.

Module headers.

(** Modelled from the spec: [headers.SetUserAgent] belongs to the headers
    package, outside the provider's file; the request builder sets a fixed
    user-agent. *)
Definition SetUserAgent `{!Upstream} (request : Request) : Request :=
  {| Method := Method request; Url := Url request;
     Header := Values_Set (Header request) "User-Agent" userAgent;
     Body := Body request |}.

(** Modelled from the spec: [headers.SetAccept] belongs to the headers
    package, outside the provider's file; the request builder sets the
    [Accept] header. *)
Definition SetAccept (request : Request) (accept : string) : Request :=
  {| Method := Method request; Url := Url request;
     Header := Values_Set (Header request) "Accept" accept;
     Body := Body request |}.

End headers.

Module utils.

Definition is_control (c : ascii) : bool :=
  let n := nat_of_ascii c in (n <? 32)%nat || (n =? 127)%nat.

(** Modelled from the spec: [utils.ToSingleLine] belongs to the utils
    package, outside the provider's file; it renders a text on a single line,
    newlines and control characters collapsed: here, left out. *)
Fixpoint ToSingleLine (s : string) : string :=
  match s with
  | EmptyString => EmptyString
  | String c rest =>
      if is_control c then ToSingleLine rest else String c (ToSingleLine rest)
  end.

End utils.

(** [fmt.Errorf(prefix + "%w", err)]. *)
Definition Errorf_w `{!Upstream} (pre : string) (err : error) : error :=
  wrapError (pre ++ Error errDomainNotValidText err) [err].

(** ** The provider *)

Module beget.

Record Provider : Type := {
  domain : string;
  (* the unstripped domain name *)
  target : string;
  owner : string;
  login : string;
  password : string;
  priority : Z;
}.

(** The result of [getData]: [Status], [Answer.Status], [Answer.Result.fqdn]
    and [Answer.Result.Records].  A Go map that was never allocated is nil:
    [None]. *)
Record getDataResult : Type := {
  gd_FQDN : string;
  gd_Records : option (gmap string RawMessage);
}.

Record getDataAnswer : Type := {
  gd_AnswerStatus : string;
  gd_Result : getDataResult;
}.

Record getDataResponse : Type := {
  gd_Status : string;
  gd_Answer : getDataAnswer;
}.

(** The settings decoded by [New]. *)
Record extraSettings : Type := {
  Login : string;
  Password : string;
  Domain : string;
  Priority : Z;
}.

(** The payload of [changeRecords]: [fqdn] and [records]. *)
Record inputData : Type := {
  in_FQDN : string;
  in_Records : option (gmap string RawMessage);
}.

(** One entry of the new ["A"] list: [priority] and [value]. *)
Record AEntry : Type := {
  a_Priority : Z;
  a_Value : string;
}.

(** The result of [changeRecords]: [Status], [Answer.Status] and
    [Answer.Result]. *)
Record changeRecordsAnswer : Type := {
  cr_AnswerStatus : string;
  cr_Result : bool;
}.

Record changeRecordsResponse : Type := {
  cr_Status : string;
  cr_Answer : changeRecordsAnswer;
}.

(** What a call of [Update] does: it returns [(newIP, err)], or it panics. *)
Inductive outcome (Addr : Type) : Type :=
| Returned (newIP : Addr) (err : option error)
| Panicked (msg : string).
Arguments Returned {Addr} newIP err.
Arguments Panicked {Addr} msg.

(** [m[key] = value] on a Go map: a nil map cannot be assigned to. *)
Definition map_assign (m : option (gmap string RawMessage))
    (key : string) (value : RawMessage) : option (gmap string RawMessage) :=
  match m with
  | None => None
  | Some entries => Some (<[key := value]> entries)
  end.

(** The state [Update] runs in: the outside world the HTTP client talks to,
    and the record of every exchange made through the client. *)
Record St (World : Type) : Type := {
  world : World;
  sent : list (Request * (error + Response));
}.
Arguments world {World} s.
Arguments sent {World} s.

Section Provider.

Context `{!Upstream, !url.Lib}.
Context `{!JSON extraSettings, !JSON getDataResponse,
          !JSON changeRecordsResponse, !JSON (gmap string string),
          !JSON (list AEntry), !JSON inputData}.
Context {Addr : Type} `{!Netip Addr}.
Context {World : Type} (client : Client World).

Definition New (data : RawMessage) (domain owner : string) :
    option Provider * option error :=
  match Unmarshal data with
  | inl err => (None, Some err)
  | inr extraSettings =>
      (* validating settings *)
      match CheckDomain (Domain extraSettings) with
      | Some err =>
          (None,
           Some (wrapError
                   (Error errDomainNotValidText ErrDomainNotValid ++ ": " ++
                    Error errDomainNotValidText err)
                   [ErrDomainNotValid; err]))
      | None =>
          (Some {| domain := domain;
                   target := Domain extraSettings;
                   priority := Priority extraSettings;
                   owner := owner;
                   login := Login extraSettings;
                   password := Password extraSettings |},
           None)
      end
  end.

(** [client.Do(request)], recorded. *)
Definition client_Do (request : Request) (st : St World) :
    (error + Response) * St World :=
  let '(r, w) := client request (world st) in
  (r, {| world := w; sent := sent st ++ [(request, r)] |}).

(** The query values [apiCall] sets. *)
Definition apiCall_values (p : Provider) (inputJSON : bytes) : Values :=
  let v : Values := ∅ in
  let v := Values_Set v "login" (login p) in
  let v := Values_Set v "passwd" (password p) in
  let v := Values_Set v "input_format" "json" in
  let v := Values_Set v "output_format" "json" in
  Values_Set v "input_data" inputJSON.

(** [apiCall] performs an authenticated GET request to the given endpoint of
    api.beget.com with [inputJSON] as [input_data]. *)
Definition apiCall (p : Provider) (URLEndpoint : string) (inputJSON : bytes)
    (st : St World) : (bytes * option error) * St World :=
  let u := {| Scheme := "https"; Host := "api.beget.com";
              Path := URLEndpoint;
              RawQuery := Values_Encode (apiCall_values p inputJSON) |} in
  match NewRequestWithContext MethodGet u None with
  | inl err =>
      ((EmptyString,
        Some (Errorf_w (Path u ++ ": Failed creating HTTP request: ") err)),
       st)
  | inr request =>
      let request := headers.SetUserAgent request in
      let request := headers.SetAccept request "application/json" in
      let '(r, st) := client_Do request st in
      match r with
      | inl err =>
          ((EmptyString, Some (Errorf_w
                        (Path u ++ ": Failed performing HTTP request: ") err)),
           st)
      | inr response =>
          match ReadAll_Body response with
          | inl err =>
              ((EmptyString, Some (Errorf_w
                            (Path u ++ ": Failed reading response body: ")
                            err)),
               st)
          | inr b =>
              if bool_decide (StatusCode response ≠ StatusOK) then
                ((b, Some (errorString
                             (Path u ++ ": HTTP status is " ++
                              pretty (StatusCode response)))),
                 st)
              else ((b, None), st)
          end
      end
  end.

Definition Update (p : Provider) (ip : Addr) (st : St World) :
    outcome Addr * St World :=
  (* Part 1: getData *)
  match Marshal ({[ "fqdn" := target p ]} : gmap string string) with
  | inl err =>
      (Returned zeroAddr
         (Some (Errorf_w "Couldn't marshal getData request: " err)), st)
  | inr getDataRequest =>
  let '((currentDataRaw, err), st) :=
    apiCall p "api/dns/getData" getDataRequest st in
  match err with
  | Some err =>
      (Returned zeroAddr (Some (Errorf_w "Calling getData failed: " err)), st)
  | None =>
  match Unmarshal currentDataRaw with
  | inl err =>
      (Returned zeroAddr
         (Some (Errorf_w "Failed unmarshalling getData response: " err)), st)
  | inr currentDataStruct =>
  if bool_decide (gd_Status currentDataStruct ≠ "success")
     || bool_decide
          (gd_AnswerStatus (gd_Answer currentDataStruct) ≠ "success")
     || bool_decide
          (gd_FQDN (gd_Result (gd_Answer currentDataStruct)) ≠ target p)
  then
    (Returned zeroAddr
       (Some (errorString "getData response doesn't indicate success")), st)
  else
  (* Part 2: changeRecords *)
  let inputData :=
    {| in_FQDN := target p;
       in_Records := gd_Records (gd_Result (gd_Answer currentDataStruct)) |} in
  match Marshal [ {| a_Priority := priority p; a_Value := Addr_String ip |} ]
  with
  | inl err =>
      (Returned zeroAddr
         (Some (Errorf_w "Couldn't marshal new A entry JSON: " err)), st)
  | inr newAEntryJSON =>
  match map_assign (in_Records inputData) "A" newAEntryJSON with
  | None => (Panicked "assignment to entry in nil map", st)
  | Some records =>
  let inputData :=
    {| in_FQDN := in_FQDN inputData; in_Records := Some records |} in
  match Marshal inputData with
  | inl err =>
      (Returned zeroAddr (Some (Errorf_w "Couldn't marshal json: " err)), st)
  | inr inputDataRaw =>
  (* the error of this call is overwritten before it is read *)
  let '((changeRecordsResponseRaw, _), st) :=
    apiCall p "/api/dns/changeRecords" inputDataRaw st in
  match Unmarshal changeRecordsResponseRaw with
  | inl err =>
      (Returned zeroAddr
         (Some (Errorf_w "Failed unmarshalling changeRecords response: " err)),
       st)
  | inr result =>
  if bool_decide (cr_Status result ≠ "success")
     || bool_decide (cr_AnswerStatus (cr_Answer result) ≠ "success")
  then
    (Returned zeroAddr
       (Some (errorString
                ("changeRequest response doesn't indicate success: " ++
                 utils.ToSingleLine changeRecordsResponseRaw))),
     st)
  else (Returned ip None, st)
  end end end end end end end.

End Provider.

End beget.
Export beget.

(** ** A test double

    Executable instances of the interfaces above, on which the provider can
    be run: a reader and writer for the JSON the Beget API exchanges, IPv4
    addresses, the query encoding of net/url, and an HTTP client that replays
    a script of responses.  The JSON reader covers objects, arrays, strings
    with the two-character escapes, integers, booleans and null; struct fields
    are matched without regard to ASCII case and the last duplicate wins, as
    encoding/json does. *)

Module double.

Definition quote : ascii := "034"%char.
Definition backslash : ascii := "\"%char.

(** Fixtures are written with ['] where JSON has a double quote. *)
Fixpoint js (s : string) : string :=
  match s with
  | EmptyString => EmptyString
  | String c rest =>
      String (if Ascii.eqb c "'" then quote else c) (js rest)
  end.

#[local] Unset Elimination Schemes.
Inductive json : Type :=
| JNull
| JBool (b : bool)
| JNumber (n : Z)
| JString (s : string)
| JArray (items : list json)
| JObject (members : list (string * json * string)).
#[local] Set Elimination Schemes.

Definition syntaxError : error := errorString "invalid JSON".
Definition typeError : error :=
  errorString "json: cannot unmarshal into Go value".

Definition is_space (c : ascii) : bool :=
  Ascii.eqb c " " || Ascii.eqb c "009" || Ascii.eqb c "010"
  || Ascii.eqb c "013".

Fixpoint skip_ws (s : string) : string :=
  match s with
  | String c rest => if is_space c then skip_ws rest else s
  | EmptyString => s
  end.

Definition unescape (c : ascii) : option ascii :=
  if Ascii.eqb c quote then Some quote
  else if Ascii.eqb c backslash then Some backslash
  else if Ascii.eqb c "/" then Some "/"%char
  else if Ascii.eqb c "n" then Some "010"%char
  else if Ascii.eqb c "r" then Some "013"%char
  else if Ascii.eqb c "t" then Some "009"%char
  else if Ascii.eqb c "b" then Some "008"%char
  else if Ascii.eqb c "f" then Some "012"%char
  else None.

(** The text of a string literal after its opening quote, and what follows
    the closing quote. *)
Fixpoint read_string (s : string) : option (string * string) :=
  match s with
  | EmptyString => None
  | String c rest =>
      if Ascii.eqb c quote then Some (EmptyString, rest)
      else if Ascii.eqb c backslash then
        match rest with
        | String e rest' =>
            match unescape e, read_string rest' with
            | Some d, Some (t, after) => Some (String d t, after)
            | _, _ => None
            end
        | EmptyString => None
        end
      else if utils.is_control c then None
      else
        match read_string rest with
        | Some (t, after) => Some (String c t, after)
        | None => None
        end
  end.

Definition digit (c : ascii) : option Z :=
  let n := nat_of_ascii c in
  if (48 <=? n)%nat && (n <=? 57)%nat then Some (Z.of_nat n - 48) else None.

Fixpoint read_digits (acc : Z) (s : string) : Z * string :=
  match s with
  | String c rest =>
      match digit c with
      | Some d => read_digits (10 * acc + d) rest
      | None => (acc, s)
      end
  | EmptyString => (acc, s)
  end.

Definition read_number (s : string) : option (Z * string) :=
  let '(neg, body) :=
    match s with
    | String "-" rest => (true, rest)
    | _ => (false, s)
    end in
  match body with
  | String c _ =>
      match digit c with
      | Some _ =>
          let '(n, after) := read_digits 0 body in
          Some (if neg then - n else n, after)
      | None => None
      end
  | EmptyString => None
  end.

Fixpoint strip_prefix (pre s : string) : option string :=
  match pre, s with
  | EmptyString, _ => Some s
  | String a pre', String b s' =>
      if Ascii.eqb a b then strip_prefix pre' s' else None
  | _, _ => None
  end.

Fixpoint take_string (n : nat) (s : string) : string :=
  match n, s with
  | S n', String c rest => String c (take_string n' rest)
  | _, _ => EmptyString
  end.

(** The text consumed between [before] and its suffix [after]. *)
Definition consumed (before after : string) : string :=
  take_string (String.length before - String.length after)%nat before.

Fixpoint read_value (fuel : nat) (s : string) {struct fuel} :
    option (json * string) :=
  match fuel with
  | O => None
  | S fuel =>
      match skip_ws s with
      | EmptyString => None
      | String c rest as s' =>
          if Ascii.eqb c "{" then
            match skip_ws rest with
            | String "}" after => Some (JObject [], after)
            | _ =>
                match read_members fuel rest with
                | Some (ms, after) => Some (JObject ms, after)
                | None => None
                end
            end
          else if Ascii.eqb c "[" then
            match skip_ws rest with
            | String "]" after => Some (JArray [], after)
            | _ =>
                match read_items fuel rest with
                | Some (vs, after) => Some (JArray vs, after)
                | None => None
                end
            end
          else if Ascii.eqb c quote then
            match read_string rest with
            | Some (t, after) => Some (JString t, after)
            | None => None
            end
          else
            match strip_prefix "true" s', strip_prefix "false" s',
                  strip_prefix "null" s' with
            | Some after, _, _ => Some (JBool true, after)
            | _, Some after, _ => Some (JBool false, after)
            | _, _, Some after => Some (JNull, after)
            | _, _, _ =>
                match read_number s' with
                | Some (n, after) => Some (JNumber n, after)
                | None => None
                end
            end
      end
  end
with read_members (fuel : nat) (s : string) {struct fuel} :
    option (list (string * json * string) * string) :=
  match fuel with
  | O => None
  | S fuel =>
      match skip_ws s with
      | String c rest =>
          if Ascii.eqb c quote then
            match read_string rest with
            | Some (key, after_key) =>
                match skip_ws after_key with
                | String ":" after_colon =>
                    let start := skip_ws after_colon in
                    match read_value fuel start with
                    | Some (v, after_value) =>
                        let m := (key, v, consumed start after_value) in
                        match skip_ws after_value with
                        | String "," more =>
                            match read_members fuel more with
                            | Some (ms, after) => Some (m :: ms, after)
                            | None => None
                            end
                        | String "}" after => Some ([m], after)
                        | _ => None
                        end
                    | None => None
                    end
                | _ => None
                end
            | None => None
            end
          else None
      | EmptyString => None
      end
  end
with read_items (fuel : nat) (s : string) {struct fuel} :
    option (list json * string) :=
  match fuel with
  | O => None
  | S fuel =>
      match read_value fuel s with
      | Some (v, after_value) =>
          match skip_ws after_value with
          | String "," more =>
              match read_items fuel more with
              | Some (vs, after) => Some (v :: vs, after)
              | None => None
              end
          | String "]" after => Some ([v], after)
          | _ => None
          end
      | None => None
      end
  end.

(** A whole document: one value, then only white space. *)
Definition read_json (s : string) : option json :=
  match read_value (S (String.length s)) s with
  | Some (v, after) =>
      match skip_ws after with
      | EmptyString => Some v
      | _ => None
      end
  | None => None
  end.

(** *** Decoding into the provider's structs *)

Definition lower (c : ascii) : ascii :=
  let n := nat_of_ascii c in
  if (65 <=? n)%nat && (n <=? 90)%nat then ascii_of_nat (n + 32) else c.

Fixpoint fold_name (s : string) : string :=
  match s with
  | EmptyString => EmptyString
  | String c rest => String (lower c) (fold_name rest)
  end.

(** The member a struct field is filled from: the last one whose key is the
    field's name up to case. *)
Definition member (name : string) (ms : list (string * json * string)) :
    option json :=
  foldl (fun found '(key, v, _) =>
           if String.eqb (fold_name key) (fold_name name) then Some v
           else found)
        None ms.

Definition as_string (v : option json) : error + string :=
  match v with
  | None | Some JNull => inr EmptyString
  | Some (JString s) => inr s
  | Some _ => inl typeError
  end.

Definition as_int (v : option json) : error + Z :=
  match v with
  | None | Some JNull => inr 0
  | Some (JNumber n) => inr n
  | Some _ => inl typeError
  end.

Definition as_bool (v : option json) : error + bool :=
  match v with
  | None | Some JNull => inr false
  | Some (JBool b) => inr b
  | Some _ => inl typeError
  end.

(** A struct: absent and null leave every field at its zero value. *)
Definition as_struct (v : option json) :
    error + list (string * json * string) :=
  match v with
  | None | Some JNull => inr []
  | Some (JObject ms) => inr ms
  | Some _ => inl typeError
  end.

(** [map[string]json.RawMessage]: absent and null leave the map nil. *)
Definition as_raw_map (v : option json) :
    error + option (gmap string RawMessage) :=
  match v with
  | None | Some JNull => inr None
  | Some (JObject ms) =>
      inr (Some (foldl (fun m '(key, _, raw) => <[key := raw]> m) ∅ ms))
  | Some _ => inl typeError
  end.

(** Sequencing of decoding steps that may fail. *)
Notation "x <-! e ; k" :=
  (match e with inl err => inl err | inr x => k end)
  (at level 100, e at next level, k at level 200, right associativity,
   only parsing).

Definition document (data : bytes) : error + option json :=
  match read_json data with
  | Some v => inr (Some v)
  | None => inl syntaxError
  end.

Definition decode_extraSettings (data : bytes) : error + extraSettings :=
  doc <-! document data;
  ms <-! as_struct doc;
  l <-! as_string (member "login" ms);
  pw <-! as_string (member "password" ms);
  d <-! as_string (member "domain" ms);
  pr <-! as_int (member "priority" ms);
  inr {| Login := l; Password := pw; Domain := d; Priority := pr |}.

Definition decode_getDataResponse (data : bytes) : error + getDataResponse :=
  doc <-! document data;
  ms <-! as_struct doc;
  status <-! as_string (member "Status" ms);
  answer <-! as_struct (member "Answer" ms);
  answer_status <-! as_string (member "Status" answer);
  result <-! as_struct (member "Result" answer);
  fqdn <-! as_string (member "fqdn" result);
  records <-! as_raw_map (member "Records" result);
  inr {| gd_Status := status;
         gd_Answer :=
           {| gd_AnswerStatus := answer_status;
              gd_Result := {| gd_FQDN := fqdn; gd_Records := records |} |} |}.

Definition decode_changeRecordsResponse (data : bytes) :
    error + changeRecordsResponse :=
  doc <-! document data;
  ms <-! as_struct doc;
  status <-! as_string (member "Status" ms);
  answer <-! as_struct (member "Answer" ms);
  answer_status <-! as_string (member "Status" answer);
  result <-! as_bool (member "Result" answer);
  inr {| cr_Status := status;
         cr_Answer :=
           {| cr_AnswerStatus := answer_status; cr_Result := result |} |}.

(** *** Encoding *)

Definition hex_digit (n : nat) : ascii :=
  match String.get n "0123456789abcdef" with
  | Some c => c
  | None => "0"%char
  end.

(** A Go string as a JSON string literal. *)
Fixpoint escape (s : string) : string :=
  match s with
  | EmptyString => EmptyString
  | String c rest =>
      let n := nat_of_ascii c in
      (if Ascii.eqb c quote then String backslash (String quote EmptyString)
       else if Ascii.eqb c backslash then
         String backslash (String backslash EmptyString)
       else if Ascii.eqb c "010" then "\n"
       else if Ascii.eqb c "013" then "\r"
       else if Ascii.eqb c "009" then "\t"
       else if (n <? 32)%nat || Ascii.eqb c "<" || Ascii.eqb c ">"
               || Ascii.eqb c "&" then
         "\u00" ++ String (hex_digit (n / 16)) (String (hex_digit (n mod 16))
                                                  EmptyString)
       else String c EmptyString) ++ escape rest
  end.

Definition literal (s : string) : string :=
  String quote (escape s) ++ String quote EmptyString.

(** Raw JSON without its insignificant white space. *)
Fixpoint compact (in_string : bool) (s : string) : string :=
  match s with
  | EmptyString => EmptyString
  | String c rest =>
      if in_string then
        if Ascii.eqb c backslash then
          match rest with
          | String e rest' => String c (String e (compact true rest'))
          | EmptyString => String c EmptyString
          end
        else String c (compact (negb (Ascii.eqb c quote)) rest)
      else if is_space c then compact false rest
      else String c (compact (Ascii.eqb c quote) rest)
  end.

Definition join (sep : string) (l : list string) : string :=
  match l with
  | [] => EmptyString
  | x :: l' => foldl (fun acc y => acc ++ sep ++ y) x l'
  end.

(** Maps are written with their keys in byte order. *)
Definition sorted_entries {V : Type} (m : gmap string V) :
    list (string * V) :=
  merge_sort (fun a b => Is_true (String.leb a.1 b.1)) (map_to_list m).

Definition encode_string_map (m : gmap string string) : error + bytes :=
  inr ("{" ++ join ","
              (map (fun '(k, v) => literal k ++ ":" ++ literal v)
                   (sorted_entries m)) ++ "}").

Definition encode_AEntries (l : list AEntry) : error + bytes :=
  inr ("[" ++ join ","
              (map (fun a =>
                      "{" ++ literal "priority" ++ ":" ++ pretty (a_Priority a)
                      ++ "," ++ literal "value" ++ ":" ++ literal (a_Value a)
                      ++ "}") l) ++ "]").

(** A raw message that is not JSON makes the encoding fail. *)
Definition encode_raw_map (m : gmap string RawMessage) : error + bytes :=
  if forallb (fun '(_, raw) =>
                match read_json raw with Some _ => true | None => false end)
             (map_to_list m)
  then
    inr ("{" ++ join ","
                (map (fun '(k, raw) => literal k ++ ":" ++ compact false raw)
                     (sorted_entries m)) ++ "}")
  else inl syntaxError.

Definition encode_inputData (d : inputData) : error + bytes :=
  records <-! match in_Records d with
              | None => inr "null"
              | Some m => encode_raw_map m
              end;
  inr ("{" ++ literal "fqdn" ++ ":" ++ literal (in_FQDN d) ++ "," ++
       literal "records" ++ ":" ++ records ++ "}").

Definition unsupported {T : Type} : error + T :=
  inl (errorString "json: unsupported by the test double").

#[export] Instance JSON_extraSettings : JSON extraSettings :=
  {| Marshal := fun _ => unsupported; Unmarshal := decode_extraSettings |}.
#[export] Instance JSON_getDataResponse : JSON getDataResponse :=
  {| Marshal := fun _ => unsupported; Unmarshal := decode_getDataResponse |}.
#[export] Instance JSON_changeRecordsResponse : JSON changeRecordsResponse :=
  {| Marshal := fun _ => unsupported;
     Unmarshal := decode_changeRecordsResponse |}.
#[export] Instance JSON_string_map : JSON (gmap string string) :=
  {| Marshal := encode_string_map; Unmarshal := fun _ => unsupported |}.
#[export] Instance JSON_AEntries : JSON (list AEntry) :=
  {| Marshal := encode_AEntries; Unmarshal := fun _ => unsupported |}.
#[export] Instance JSON_inputData : JSON inputData :=
  {| Marshal := encode_inputData; Unmarshal := fun _ => unsupported |}.

(** *** Addresses, URLs, helpers and the client *)

(** An IPv4 address of four octets, or the zero [netip.Addr]. *)
Inductive ip4 : Type :=
| ip4_zero
| ip4_of (a b c d : ascii).

Definition octet (c : ascii) : string := pretty (N_of_ascii c).

Definition ip4_String (ip : ip4) : string :=
  match ip with
  | ip4_zero => "invalid IP"
  | ip4_of a b c d =>
      octet a ++ "." ++ octet b ++ "." ++ octet c ++ "." ++ octet d
  end.

#[export] Instance Netip_ip4 : Netip ip4 :=
  {| zeroAddr := ip4_zero;
     IsValid := fun ip => match ip with ip4_zero => false | _ => true end;
     Addr_String := ip4_String;
     IsValid_zeroAddr := eq_refl |}.

Definition upper_hex_digit (n : nat) : ascii :=
  match String.get n "0123456789ABCDEF" with
  | Some c => c
  | None => "0"%char
  end.

Definition unreserved (c : ascii) : bool :=
  let n := nat_of_ascii c in
  (48 <=? n)%nat && (n <=? 57)%nat || (65 <=? n)%nat && (n <=? 90)%nat
  || (97 <=? n)%nat && (n <=? 122)%nat
  || Ascii.eqb c "-" || Ascii.eqb c "_" || Ascii.eqb c "." || Ascii.eqb c "~".

(** [url.QueryEscape]. *)
Fixpoint QueryEscape (s : string) : string :=
  match s with
  | EmptyString => EmptyString
  | String c rest =>
      let n := nat_of_ascii c in
      if unreserved c then String c (QueryEscape rest)
      else if Ascii.eqb c " " then String "+" (QueryEscape rest)
      else String "%" (String (upper_hex_digit (n / 16))
                         (String (upper_hex_digit (n mod 16))
                            (QueryEscape rest)))
  end.

(** [Values.Encode]: [key=value] pairs sorted by key, joined by [&]. *)
Definition encode_values (v : Values) : string :=
  join "&"
    (concat
       (map (fun '(k, vs) =>
               map (fun x => QueryEscape k ++ "=" ++ QueryEscape x) vs)
            (sorted_entries v))).

#[export] Instance url_Lib : url.Lib :=
  {| Values_Encode := encode_values; Parse_error := fun _ => None |}.

Definition is_label_char (c : ascii) : bool :=
  let n := nat_of_ascii c in
  (48 <=? n)%nat && (n <=? 57)%nat || (65 <=? n)%nat && (n <=? 90)%nat
  || (97 <=? n)%nat && (n <=? 122)%nat || Ascii.eqb c "-".

(** Whether [s] is a sequence of non-empty labels separated by dots;
    [fresh] holds at the start of a label. *)
Fixpoint labels_ok (fresh : bool) (s : string) : bool :=
  match s with
  | EmptyString => negb fresh
  | String c rest =>
      if Ascii.eqb c "." then negb fresh && labels_ok true rest
      else is_label_char c && labels_ok false rest
  end.

(** Modelled from the spec: [utils.CheckDomain] belongs to the utils
    package, outside the provider's file; the domain must be syntactically
    valid: here, non-empty labels of letters, digits and hyphens, separated
    by dots. *)
Definition check_domain (d : string) : option error :=
  if labels_ok true d then None
  else Some (errorString ("invalid domain: " ++ d)).

#[export] Instance upstream : Upstream :=
  {| CheckDomain := check_domain;
     userAgent := "DDNS-Updater";
     errDomainNotValidText := "domain is not valid" |}.

(** A client that replays a script: each request is answered by the next
    scripted result. *)
Definition scripted : Client (list (error + Response)) :=
  fun _ script =>
    match script with
    | [] => (inl (errorString "no response scripted"), [])
    | r :: script' => (r, script')
    end.

Definition ok (status : Z) (body : string) : error + Response :=
  inr {| StatusCode := status; ReadAll_Body := inr body |}.

(** The initial state: nothing sent yet. *)
Definition start (script : list (error + Response)) :
    St (list (error + Response)) :=
  {| world := script; sent := [] |}.

(** The example of the specification. *)
Definition example_provider : Provider :=
  {| domain := "example.com"; target := "example.com"; owner := "@";
     login := "user"; password := "secret"; priority := 10 |}.

Definition example_ip : ip4 := ip4_of "203" "000" "113" "005".

Definition example_getData : string :=
  js "{'Status':'success','Answer':{'Status':'success','Result':{'fqdn':'example.com','Records':{'TXT':['v=spf1']}}}}".

Definition example_changeRecords : string :=
  js "{'Status':'success','Answer':{'Status':'success','Result':true}}".

End double.

(** ** The identity of the provider *)

(** The methods through which the scheduler and the user interface read a
    provider.  They are kept apart from [beget] because [Domain] and
    [String] are also names of the settings and of the string constructor. *)
Module identity.

(** [models.HTMLRow]: the four cells the provider fills in. *)
Record HTMLRow : Type := {
  html_Domain : string;
  html_Owner : string;
  html_Provider : string;
  html_IPVersion : string;
}.

(** What the methods take from their sibling packages: the provider name
    [constants.Beget], the version [ipversion.IP4] with its [String] method,
    [utils.ToString] and [utils.BuildDomainName]. *)
Class Naming : Type := {
  ProviderName : Type;
  Beget : ProviderName;
  Version : Type;
  IP4 : Version;
  Version_String : Version -> string;
  ToString : string -> string -> ProviderName -> Version -> string;
  utils_BuildDomainName : string -> string -> string;
}.

Section Methods.

Context `{!Naming}.

Definition Domain (p : Provider) : string := domain p.

Definition Owner (p : Provider) : string := owner p.

Definition IPVersion (p : Provider) : Version := IP4.

Definition Proxied (p : Provider) : bool := false.

Definition BuildDomainName (p : Provider) : string :=
  utils_BuildDomainName (owner p) (domain p).

(** [fmt.Sprintf] with the two [%s] verbs filled in. *)
Definition HTML (p : Provider) : HTMLRow :=
  let q := String "034" EmptyString in
  {| html_Domain :=
       "<a href=" ++ q ++ "http://" ++ BuildDomainName p ++ q ++ ">" ++
       BuildDomainName p ++ "</a>";
     html_Owner := Owner p;
     html_Provider :=
       "<a href=" ++ q ++ "https://beget.com" ++ q ++ ">Beget</a>";
     html_IPVersion := Version_String IP4 |}.

Definition String (p : Provider) : string :=
  ToString (domain p) (owner p) Beget IP4.

End Methods.

End identity.

(** Further doubles: the naming helpers, and a URL library that refuses
    every URL. *)
Module double_more.

Definition build_domain_name (owner domain : string) : string :=
  if String.eqb owner "@" then domain else owner ++ "." ++ domain.

#[export] Instance naming : identity.Naming :=
  {| identity.ProviderName := string;
     identity.Beget := "beget";
     identity.Version := string;
     identity.IP4 := "ipv4";
     identity.Version_String := fun v => v;
     identity.ToString := fun domain owner provider version =>
       "[domain: " ++ domain ++ " | owner: " ++ owner ++ " | provider: " ++
       provider ++ " | ip: " ++ version ++ "]";
     identity.utils_BuildDomainName := build_domain_name |}.

Definition refusing_url_Lib : url.Lib :=
  {| Values_Encode := double.encode_values;
     Parse_error := fun _ => Some (errorString "net/url: invalid URL") |}.


End double_more.

(** ** Verification *)

Section ErrorFacts.

Lemma error_eqb_refl (e : error) : error_eqb e e = true.
Proof.
  induction e as [| s | s l IH] using error_nested_ind.
  - reflexivity.
  - simpl. by rewrite bool_decide_eq_true.
  - simpl. rewrite bool_decide_true by done. simpl.
    induction IH as [| x l' Hx _ IHl]; [done |].
    by rewrite Hx, IHl.
Qed.

Lemma Is_refl (e : error) : Is e e = true.
Proof.
  destruct e; cbn [Is]; by rewrite error_eqb_refl.
Qed.

Lemma Is_wrapped (msg : string) (errs : list error) (e : error) :
  e ∈ errs -> Is (wrapError msg errs) e = true.
Proof.
  intros Hin. cbn [Is]. apply orb_true_iff. right.
  induction Hin as [x l | x y l _ IH].
  - by rewrite Is_refl.
  - rewrite IH. apply orb_true_r.
Qed.

End ErrorFacts.

(** *** Construction *)

Section NewFacts.

Context `{!Upstream, !JSON extraSettings}.

(** C6: when the configuration blob decodes to settings whose [domain] is
    rejected by the domain check, [New] returns no provider and an error
    that wraps [ErrDomainNotValid] (and the error of the check). *)
Theorem New_invalid_domain (data domain owner : string)
    (settings : extraSettings) (e : error) :
  Unmarshal data = inr settings ->
  CheckDomain (Domain settings) = Some e ->
  exists err,
    New data domain owner = (None, Some err) /\
    Is err ErrDomainNotValid = true /\ Is err e = true.
Proof.
  intros Hdata Hcheck. unfold New. rewrite Hdata, Hcheck.
  eexists. split; [reflexivity |].
  split; apply Is_wrapped; set_solver.
Qed.

(** C7, as the code has it: [New] does not look at the credentials.  When
    the blob decodes and its domain passes the check, [New] returns a
    provider holding the decoded login and password as they are, empty or
    not. *)
Theorem New_keeps_credentials (data domain owner : string)
    (settings : extraSettings) :
  Unmarshal data = inr settings ->
  CheckDomain (Domain settings) = None ->
  New data domain owner =
    (Some {| domain := domain; target := Domain settings; owner := owner;
             login := Login settings; password := Password settings;
             priority := Priority settings |},
     None).
Proof.
  intros Hdata Hcheck. unfold New. by rewrite Hdata, Hcheck.
Qed.

(** Whenever [New] returns an error it returns no provider. *)
Lemma New_error_no_instance (data domain owner : string)
    (p : option Provider) (err : error) :
  New data domain owner = (p, Some err) -> p = None.
Proof.
  unfold New. intros Hnew.
  destruct (Unmarshal data) as [e | settings]; [by simplify_eq |].
  destruct (CheckDomain _); by simplify_eq.
Qed.

End NewFacts.

(** *** The authenticated GET *)

Section apiCallFacts.

Context `{!Upstream, !url.Lib}.
Context {World : Type} (client : Client World).

(** The request [apiCall] hands to the client. *)
Local Abbreviation built p URLEndpoint inputJSON :=
  (headers.SetAccept
     (headers.SetUserAgent
        {| Method := MethodGet;
           Url := {| Scheme := "https"; Host := "api.beget.com";
                     Path := URLEndpoint;
                     RawQuery :=
                       Values_Encode (apiCall_values p inputJSON) |};
           Header := ∅; Body := None |})
     "application/json").

(** The runs of [apiCall]: either no request is made and the call fails, or
    exactly the built request is made and the result follows from what the
    client answered. *)
Lemma apiCall_inv (p : Provider) (URLEndpoint : string) (inputJSON : bytes)
    (st st' : St World) (b : bytes) (err : option error) :
  apiCall client p URLEndpoint inputJSON st = ((b, err), st') ->
  (sent st' = sent st /\ b = EmptyString /\ err <> None) \/
  exists r,
    sent st' = (sent st ++ [(built p URLEndpoint inputJSON, r)])%list /\
    match r with
    | inl _ => b = EmptyString /\ err <> None
    | inr response =>
        match ReadAll_Body response with
        | inl _ => b = EmptyString /\ err <> None
        | inr body =>
            b = body /\
            err = if bool_decide (StatusCode response = StatusOK) then None
                  else Some (errorString
                               (URLEndpoint ++ ": HTTP status is " ++
                                pretty (StatusCode response)))
        end
    end.
Proof.
  unfold apiCall, NewRequestWithContext, client_Do. intros Hcall.
  destruct (Parse_error _) as [e |].
  { left. by simplify_eq. }
  right. destruct (client _ (world st)) as [r w] eqn:Hdo.
  exists r. destruct r as [e | response].
  { by simplify_eq. }
  destruct (ReadAll_Body response) as [e | body].
  { by simplify_eq. }
  cbn [Path] in Hcall. repeat case_bool_decide; by simplify_eq.
Qed.

(** The run of [apiCall] when the URL parses and the client answers 200
    with a body that can be read. *)
Lemma apiCall_ok (p : Provider) (URLEndpoint : string) (inputJSON : bytes)
    (st : St World) (response : Response) (w : World) (body : bytes) :
  (forall u, Parse_error u = None) ->
  client (built p URLEndpoint inputJSON) (world st) = (inr response, w) ->
  StatusCode response = 200 ->
  ReadAll_Body response = inr body ->
  apiCall client p URLEndpoint inputJSON st =
    ((body, None),
     {| world := w;
        sent := sent st ++ [(built p URLEndpoint inputJSON, inr response)] |}).
Proof.
  intros Hparse Hdo Hcode Hbody.
  unfold apiCall, NewRequestWithContext, client_Do.
  rewrite Hparse, Hdo, Hbody.
  by rewrite bool_decide_false by (unfold StatusOK; intros Hne; by apply Hne).
Qed.

(** When the URL parses, [apiCall] makes its request. *)
Lemma apiCall_sent (p : Provider) (URLEndpoint : string) (inputJSON : bytes)
    (st : St World) :
  (forall u, Parse_error u = None) ->
  exists r,
    sent (apiCall client p URLEndpoint inputJSON st).2 =
      (sent st ++ [(built p URLEndpoint inputJSON, r)])%list.
Proof.
  intros Hparse. unfold apiCall, NewRequestWithContext, client_Do.
  rewrite Hparse. destruct (client _ (world st)) as [r w]. exists r.
  destruct r as [e | response]; [done |].
  destruct (ReadAll_Body response); [done |]. by case_bool_decide.
Qed.

Lemma apiCall_values_lookup (p : Provider) (inputJSON : bytes) (k : string) :
  apiCall_values p inputJSON !! k =
    if decide (k = "login") then Some [login p]
    else if decide (k = "passwd") then Some [password p]
    else if decide (k = "input_format") then Some ["json"]
    else if decide (k = "output_format") then Some ["json"]
    else if decide (k = "input_data") then Some [inputJSON]
    else None.
Proof.
  unfold apiCall_values, Values_Set.
  repeat case_decide; subst; by simplify_map_eq.
Qed.

(** C8: a request made by [apiCall] is a GET without body to
    [https://api.beget.com] at the given path; its query is the encoding of
    exactly the five values [login], [passwd], [input_format=json],
    [output_format=json] and [input_data] (the payload); the [Accept] header
    is [application/json] and the user agent is the fixed one. *)
Theorem apiCall_request (p : Provider) (URLEndpoint : string)
    (inputJSON : bytes) (st st' : St World) (out : bytes * option error)
    (request : Request) (r : error + Response) :
  apiCall client p URLEndpoint inputJSON st = (out, st') ->
  sent st' = (sent st ++ [(request, r)])%list ->
  Method request = "GET" /\
  Scheme (Url request) = "https" /\
  Host (Url request) = "api.beget.com" /\
  Path (Url request) = URLEndpoint /\
  Body request = None /\
  Header request !! "Accept" = Some ["application/json"] /\
  Header request !! "User-Agent" = Some [userAgent] /\
  exists v : Values,
    RawQuery (Url request) = Values_Encode v /\
    dom v = {[ "login"; "passwd"; "input_format"; "output_format";
               "input_data" ]} /\
    v !! "login" = Some [login p] /\
    v !! "passwd" = Some [password p] /\
    v !! "input_format" = Some ["json"] /\
    v !! "output_format" = Some ["json"] /\
    v !! "input_data" = Some [inputJSON].
Proof.
  intros Hcall Hsent. destruct out as [b err].
  apply apiCall_inv in Hcall as [(Hsame & _) | (r' & Hsent' & _)].
  { rewrite Hsame in Hsent. apply (f_equal length) in Hsent.
    rewrite length_app in Hsent. simpl in Hsent. lia. }
  rewrite Hsent' in Hsent. apply app_inv_head in Hsent.
  injection Hsent as <- <-.
  repeat split; try done.
  exists (apiCall_values p inputJSON).
  split; [done |]. split.
  - unfold apiCall_values, Values_Set.
    rewrite !dom_insert_L, dom_empty_L. set_solver.
  - by rewrite !apiCall_values_lookup.
Qed.

(** C9: when the client answered with a response whose body could be read,
    [apiCall] returns that body; with a non-nil error if the status code is
    not 200, and with no error if it is 200. *)
Theorem apiCall_status (p : Provider) (URLEndpoint : string)
    (inputJSON : bytes) (st st' : St World) (out : bytes * option error)
    (request : Request) (response : Response) (body : bytes) :
  apiCall client p URLEndpoint inputJSON st = (out, st') ->
  sent st' = (sent st ++ [(request, inr response)])%list ->
  ReadAll_Body response = inr body ->
  (StatusCode response <> 200 -> exists err, out = (body, Some err)) /\
  (StatusCode response = 200 -> out = (body, None)).
Proof.
  intros Hcall Hsent Hbody. destruct out as [b err].
  apply apiCall_inv in Hcall as [(Hsame & _) | (r' & Hsent' & Hr)].
  { rewrite Hsame in Hsent. apply (f_equal length) in Hsent.
    rewrite length_app in Hsent. simpl in Hsent. lia. }
  rewrite Hsent' in Hsent. apply app_inv_head in Hsent.
  injection Hsent as _ ->. rewrite Hbody in Hr. destruct Hr as [-> ->].
  unfold StatusOK. split; intros Hcode.
  - rewrite bool_decide_false by done. eauto.
  - by rewrite bool_decide_true.
Qed.

End apiCallFacts.

(** *** The update *)

Section UpdateFacts.

Context `{!Upstream, !url.Lib}.
Context `{!JSON getDataResponse, !JSON changeRecordsResponse,
          !JSON (gmap string string), !JSON (list AEntry), !JSON inputData}.
Context {Addr : Type} `{!Netip Addr}.
Context {World : Type} (client : Client World).

(** C10: whenever [Update] returns an error, the address it returns is the
    zero address, which is not valid. *)
Theorem Update_error_zero (p : Provider) (ip newIP : Addr)
    (st st' : St World) (err : error) :
  Update client p ip st = (Returned newIP (Some err), st') ->
  newIP = zeroAddr /\ IsValid newIP = false.
Proof.
  intros Hrun.
  assert (newIP = zeroAddr) as ->.
  { unfold Update in Hrun. repeat case_match; by simplify_eq. }
  split; [done | apply IsValid_zeroAddr].
Qed.

(** The request [apiCall] hands to the client. *)
Local Abbreviation built p URLEndpoint inputJSON :=
  (headers.SetAccept
     (headers.SetUserAgent
        {| Method := MethodGet;
           Url := {| Scheme := "https"; Host := "api.beget.com";
                     Path := URLEndpoint;
                     RawQuery :=
                       Values_Encode (apiCall_values p inputJSON) |};
           Header := ∅; Body := None |})
     "application/json").

(** The fetched response passes the checks of [Update]. *)
Local Abbreviation accepted p currentData :=
  (gd_Status currentData = "success" /\
   gd_AnswerStatus (gd_Answer currentData) = "success" /\
   gd_FQDN (gd_Result (gd_Answer currentData)) = target p).

(** What [Update] returns once [changeRecords] gave back [raw]. *)
Local Abbreviation verdict ip raw :=
  (match Unmarshal raw with
   | inl err =>
       Returned zeroAddr
         (Some (Errorf_w "Failed unmarshalling changeRecords response: " err))
   | inr result =>
       if bool_decide (cr_Status result ≠ "success")
          || bool_decide (cr_AnswerStatus (cr_Answer result) ≠ "success")
       then
         Returned zeroAddr
           (Some (errorString
                    ("changeRequest response doesn't indicate success: " ++
                     utils.ToSingleLine raw)))
       else Returned ip None
   end).

(** The runs of [Update].  Either it stops with an error before any request,
    or after the getData exchange; or it panics after a getData exchange
    that passed the checks but carried no record map; or it makes the
    getData exchange, which passed the checks with record map [R], then
    calls changeRecords with [R] updated at ["A"], and returns the verdict
    on what that call gave back. *)
Lemma Update_inv (p : Provider) (ip : Addr) (st st' : St World)
    (out : outcome Addr) :
  Update client p ip st = (out, st') ->
  (sent st' = sent st /\ exists err, out = Returned zeroAddr (Some err))
  \/ (exists x, sent st' = (sent st ++ [x])%list /\
      exists err, out = Returned zeroAddr (Some err))
  \/ (exists request response raw currentData,
        sent st' = (sent st ++ [(request, inr response)])%list /\
        ReadAll_Body response = inr raw /\
        Unmarshal raw = inr currentData /\ accepted p currentData /\
        gd_Records (gd_Result (gd_Answer currentData)) = None /\
        out = Panicked "assignment to entry in nil map")
  \/ (exists request response raw currentData R newAEntryJSON inputDataRaw
             st1 raw2 err2,
        sent st1 = (sent st ++ [(request, inr response)])%list /\
        StatusCode response = 200 /\
        ReadAll_Body response = inr raw /\
        Unmarshal raw = inr currentData /\ accepted p currentData /\
        gd_Records (gd_Result (gd_Answer currentData)) = Some R /\
        Marshal [ {| a_Priority := priority p; a_Value := Addr_String ip |} ]
          = inr newAEntryJSON /\
        Marshal {| in_FQDN := target p;
                   in_Records := Some (<["A" := newAEntryJSON]> R) |}
          = inr inputDataRaw /\
        apiCall client p "/api/dns/changeRecords" inputDataRaw st1
          = ((raw2, err2), st') /\
        out = verdict ip raw2).
Proof.
  intros Hrun. unfold Update in Hrun.
  destruct (Marshal {[ "fqdn" := target p ]}) as [e | getDataRequest].
  { left. simplify_eq. eauto. }
  destruct (apiCall _ _ "api/dns/getData" _ _) as [[raw err] st1] eqn:Hcall.
  apply apiCall_inv in Hcall as [(Hsame & _ & Herr) | (r & Hsent & Hr)].
  { left. destruct err; [| done]. simplify_eq. eauto. }
  right.
  destruct err as [e |].
  { left. simplify_eq. eauto. }
  destruct r as [e | response]; [by destruct Hr |].
  destruct (ReadAll_Body response) as [e | body] eqn:Hbody;
    [by destruct Hr |].
  destruct Hr as [-> Hr]. case_bool_decide as Hcode; [clear Hr | done].
  destruct (Unmarshal body) as [e | currentData] eqn:Hdecode.
  { left. simplify_eq. eauto. }
  destruct (_ || _) eqn:Hcheck.
  { left. simplify_eq. eauto. }
  apply orb_false_iff in Hcheck as [Hcheck Hfqdn].
  apply orb_false_iff in Hcheck as [Hstatus Hanswer].
  apply bool_decide_eq_false, dec_stable in Hstatus, Hanswer, Hfqdn.
  destruct (Marshal [_]) as [e | newAEntryJSON] eqn:HA.
  { left. simplify_eq. eauto. }
  cbn [in_Records in_FQDN] in Hrun.
  destruct (gd_Records _) as [R |] eqn:HR; cbn [map_assign] in Hrun.
  2: { right. left. simplify_eq.
       by eexists _, response, body, currentData. }
  destruct (Marshal {| in_FQDN := _ |}) as [e | inputDataRaw] eqn:Hinput.
  { left. simplify_eq. eauto. }
  right. right.
  destruct (apiCall _ _ "/api/dns/changeRecords" _ _)
    as [[raw2 err2] st2] eqn:Hcall2.
  exists (built p "api/dns/getData" getDataRequest), response, body,
    currentData, R, newAEntryJSON, inputDataRaw, st1, raw2, err2.
  assert (st' = st2 /\ out = verdict ip raw2) as [-> ->].
  { destruct (Unmarshal raw2); [by simplify_eq |].
    destruct (_ || _); by simplify_eq. }
  done.
Qed.

(** A getData exchange that passes the checks and carries a record map is
    followed by the changeRecords request, as long as the encodings succeed
    and the URLs parse. *)
Lemma Update_reaches_write (p : Provider) (ip : Addr) (st : St World)
    (getDataRequest raw newAEntryJSON inputDataRaw : bytes)
    (response : Response) (w : World) (currentData : getDataResponse)
    (R : gmap string RawMessage) :
  (forall u, Parse_error u = None) ->
  Marshal ({[ "fqdn" := target p ]} : gmap string string)
    = inr getDataRequest ->
  client (built p "api/dns/getData" getDataRequest) (world st)
    = (inr response, w) ->
  StatusCode response = 200 ->
  ReadAll_Body response = inr raw ->
  Unmarshal raw = inr currentData ->
  accepted p currentData ->
  gd_Records (gd_Result (gd_Answer currentData)) = Some R ->
  Marshal [ {| a_Priority := priority p; a_Value := Addr_String ip |} ]
    = inr newAEntryJSON ->
  Marshal {| in_FQDN := target p;
             in_Records := Some (<["A" := newAEntryJSON]> R) |}
    = inr inputDataRaw ->
  exists r2,
    sent (Update client p ip st).2 =
      (sent st ++
       [(built p "api/dns/getData" getDataRequest, inr response);
        (built p "/api/dns/changeRecords" inputDataRaw, r2)])%list.
Proof.
  intros Hparse Hq Hdo Hcode Hbody Hdecode (Hs1 & Hs2 & Hs3) HR HA Hi.
  unfold Update. rewrite Hq.
  rewrite (apiCall_ok client p _ _ st response w raw) by done.
  rewrite Hdecode, Hs1, Hs2, Hs3.
  rewrite !bool_decide_false by (intros Hne; by apply Hne).
  cbn [orb in_Records in_FQDN]. rewrite HA, HR. cbn [map_assign].
  rewrite Hi.
  destruct (apiCall_sent client p "/api/dns/changeRecords" inputDataRaw
              {| world := w;
                 sent := sent st ++
                   [(built p "api/dns/getData" getDataRequest,
                     inr response)] |}) as [r2 Hsent]; [done |].
  exists r2. cbn [sent] in Hsent. rewrite <- app_assoc in Hsent.
  cbn [app] in Hsent. rewrite <- Hsent.
  destruct (apiCall _ _ _ _ _) as [[raw2 err2] st2].
  destruct (Unmarshal raw2); [done |]. by destruct (_ || _).
Qed.

(** The exchanges of a run extend the record made so far; a record cannot
    be its own proper extension. *)
Lemma sent_absurd {A : Type} (l k : list A) (x : A) :
  l = (l ++ x :: k)%list -> False.
Proof.
  intros Heq. apply (f_equal length) in Heq.
  rewrite length_app in Heq. simpl in Heq. lia.
Qed.

(** C1: when the getData response decodes to an outer status or an answer
    status other than ["success"], or to an FQDN other than the target,
    [Update] returns an error and the getData exchange is the only one
    made: no changeRecords request is issued. *)
Theorem Update_fetch_rejected (p : Provider) (ip : Addr) (st st' : St World)
    (out : outcome Addr) (request : Request) (response : Response)
    (rest : list (Request * (error + Response)))
    (raw : bytes) (currentData : getDataResponse) :
  Update client p ip st = (out, st') ->
  sent st' = (sent st ++ (request, inr response) :: rest)%list ->
  ReadAll_Body response = inr raw ->
  Unmarshal raw = inr currentData ->
  gd_Status currentData <> "success"
  \/ gd_AnswerStatus (gd_Answer currentData) <> "success"
  \/ gd_FQDN (gd_Result (gd_Answer currentData)) <> target p ->
  (exists err, out = Returned zeroAddr (Some err)) /\ rest = [].
Proof.
  intros Hrun Hsent Hbody Hdecode Hbad.
  assert (forall cd, Unmarshal raw = inr cd -> accepted p cd -> False)
    as Hrejected.
  { intros cd Hcd (? & ? & ?).
    assert (cd = currentData) as -> by congruence.
    destruct Hbad as [? | [? | ?]]; done. }
  apply Update_inv in Hrun
    as [(Hs & _) | [(x & Hs & Herr) | [Hpanic | Hwrite]]].
  - rewrite Hs in Hsent. by apply sent_absurd in Hsent.
  - rewrite Hs in Hsent. by simplify_list_eq.
  - destruct Hpanic as (rq & rs & raw' & cd & Hs & Hb & Hd & Hacc & _).
    rewrite Hs in Hsent. simplify_list_eq.
    exfalso. eapply Hrejected; [| done]. congruence.
  - destruct Hwrite as (rq & rs & raw' & cd & R & a & i & st1 & raw2 & err2
                        & Hs & _ & Hb & Hd & Hacc & _ & _ & _ & Hcall & _).
    exfalso.
    assert (exists new, sent st' = (sent st1 ++ new)%list) as [new Hs'].
    { apply apiCall_inv in Hcall as [(-> & _) | (r & -> & _)].
      - exists []. by rewrite app_nil_r.
      - eauto. }
    rewrite Hs', Hs, <- app_assoc in Hsent. simplify_list_eq.
    eapply Hrejected; [| done]. congruence.
Qed.

(** A run that made exactly two exchanges made the changeRecords call. *)
Lemma Update_two_exchanges (p : Provider) (ip : Addr) (st st' : St World)
    (out : outcome Addr) (x1 x2 : Request * (error + Response)) :
  Update client p ip st = (out, st') ->
  sent st' = (sent st ++ [x1; x2])%list ->
  exists response raw currentData R newAEntryJSON inputDataRaw raw2,
    x1.2 = inr response /\
    ReadAll_Body response = inr raw /\
    Unmarshal raw = inr currentData /\ accepted p currentData /\
    gd_Records (gd_Result (gd_Answer currentData)) = Some R /\
    Marshal [ {| a_Priority := priority p; a_Value := Addr_String ip |} ]
      = inr newAEntryJSON /\
    Marshal {| in_FQDN := target p;
               in_Records := Some (<["A" := newAEntryJSON]> R) |}
      = inr inputDataRaw /\
    x2.1 = built p "/api/dns/changeRecords" inputDataRaw /\
    match x2.2 with
    | inl _ => raw2 = EmptyString
    | inr response2 =>
        match ReadAll_Body response2 with
        | inl _ => raw2 = EmptyString
        | inr body2 => raw2 = body2
        end
    end /\
    out = verdict ip raw2.
Proof.
  intros Hrun Hsent.
  apply Update_inv in Hrun
    as [(Hs & _) | [(x & Hs & Herr) | [Hpanic | Hwrite]]].
  - rewrite Hs in Hsent. by apply sent_absurd in Hsent.
  - rewrite Hs in Hsent. by simplify_list_eq.
  - destruct Hpanic as (rq & rs & raw' & cd & Hs & _).
    rewrite Hs in Hsent. by simplify_list_eq.
  - destruct Hwrite as (rq & rs & raw & cd & R & a & i & st1 & raw2 & err2
                        & Hs & _ & Hb & Hd & Hacc & HR & HA & Hi & Hcall
                        & Hout).
    apply apiCall_inv in Hcall as [(Hs' & _) | (r & Hs' & Hr)];
      rewrite Hs', Hs in Hsent.
    { by simplify_list_eq. }
    rewrite <- app_assoc in Hsent. simplify_list_eq.
    exists rs, raw, cd, R, a, i, raw2. repeat (split; [done |]).
    split; [| done].
    destruct r as [? | response2]; [by destruct Hr |].
    destruct (ReadAll_Body response2); by destruct Hr.
Qed.

(** C2: when the getData response carried the record map [R] and the
    changeRecords request was made, the payload of that request is the
    encoding of the target with a record map that holds, under ["A"], the
    encoding of the one-element list of the configured priority and the
    text of the new address, and under every other key what [R] holds. *)
Theorem Update_write_payload (p : Provider) (ip : Addr) (st st' : St World)
    (out : outcome Addr) (request1 request2 : Request) (response : Response)
    (r2 : error + Response) (raw : bytes) (currentData : getDataResponse)
    (R : gmap string RawMessage) :
  Update client p ip st = (out, st') ->
  sent st' = (sent st ++ [(request1, inr response); (request2, r2)])%list ->
  ReadAll_Body response = inr raw ->
  Unmarshal raw = inr currentData ->
  gd_Records (gd_Result (gd_Answer currentData)) = Some R ->
  exists (newAEntryJSON : RawMessage) (records : gmap string RawMessage)
         (inputDataRaw : bytes) (v : Values),
    Marshal [ {| a_Priority := priority p; a_Value := Addr_String ip |} ]
      = inr newAEntryJSON /\
    records !! "A" = Some newAEntryJSON /\
    (forall k, k <> "A" -> records !! k = R !! k) /\
    Marshal {| in_FQDN := target p; in_Records := Some records |}
      = inr inputDataRaw /\
    Path (Url request2) = "/api/dns/changeRecords" /\
    RawQuery (Url request2) = Values_Encode v /\
    v !! "input_data" = Some [inputDataRaw].
Proof.
  intros Hrun Hsent Hbody Hdecode HR.
  destruct (Update_two_exchanges _ _ _ _ _ _ _ Hrun Hsent)
    as (rs & raw' & cd & R' & a & i & raw2 & Hx1 & Hb & Hd & _ & HR' & HA
        & Hi & Hx2 & _).
  simpl in Hx1, Hx2. simplify_eq.
  assert (raw' = raw) as -> by congruence.
  assert (cd = currentData) as -> by congruence.
  assert (R' = R) as -> by congruence.
  exists a, (<["A" := a]> R), i, (apiCall_values p i).
  split; [done |]. split; [by rewrite lookup_insert_eq |].
  split; [intros k Hk; by rewrite lookup_insert_ne |].
  split; [done |]. split; [done |]. split; [done |].
  by rewrite apiCall_values_lookup.
Qed.

(** C3: when the changeRecords response decodes to an outer status and an
    answer status that are both ["success"], [Update] returns the address it
    was given, and no error. *)
Theorem Update_write_success (p : Provider) (ip : Addr) (st st' : St World)
    (out : outcome Addr) (x1 : Request * (error + Response))
    (request2 : Request) (response2 : Response) (raw2 : bytes)
    (result : changeRecordsResponse) :
  Update client p ip st = (out, st') ->
  sent st' = (sent st ++ [x1; (request2, inr response2)])%list ->
  ReadAll_Body response2 = inr raw2 ->
  Unmarshal raw2 = inr result ->
  cr_Status result = "success" ->
  cr_AnswerStatus (cr_Answer result) = "success" ->
  out = Returned ip None.
Proof.
  intros Hrun Hsent Hbody Hdecode Hstatus Hanswer.
  destruct (Update_two_exchanges _ _ _ _ _ _ _ Hrun Hsent)
    as (rs & raw' & cd & R' & a & i & raw & _ & _ & _ & _ & _ & _
        & _ & _ & Hraw & ->).
  simpl in Hraw. rewrite Hbody in Hraw. subst raw.
  rewrite Hdecode, Hstatus, Hanswer. done.
Qed.

Lemma list_ascii_of_string_app (a b : string) :
  list_ascii_of_string (a ++ b) =
    (list_ascii_of_string a ++ list_ascii_of_string b)%list.
Proof. induction a as [| c a IH]; simpl; [done | by rewrite IH]. Qed.

Lemma ToSingleLine_no_control (s : string) (c : ascii) :
  In c (list_ascii_of_string (utils.ToSingleLine s)) ->
  utils.is_control c = false.
Proof.
  induction s as [| d s IH]; simpl; [done |].
  destruct (utils.is_control d) eqn:Hd; [done |].
  simpl. intros [<- | Hin]; [done | by apply IH].
Qed.

(** C5: when the changeRecords response decodes to an outer status or an
    answer status other than ["success"], [Update] returns an error whose
    message ends with the single-line rendering of the raw response body,
    and the message holds no line feed and no carriage return. *)
Theorem Update_write_rejected (p : Provider) (ip : Addr) (st st' : St World)
    (out : outcome Addr) (x1 : Request * (error + Response))
    (request2 : Request) (response2 : Response) (raw2 : bytes)
    (result : changeRecordsResponse) :
  Update client p ip st = (out, st') ->
  sent st' = (sent st ++ [x1; (request2, inr response2)])%list ->
  ReadAll_Body response2 = inr raw2 ->
  Unmarshal raw2 = inr result ->
  cr_Status result <> "success"
  \/ cr_AnswerStatus (cr_Answer result) <> "success" ->
  exists err,
    out = Returned zeroAddr (Some err) /\
    Error errDomainNotValidText err =
      "changeRequest response doesn't indicate success: " ++
      utils.ToSingleLine raw2 /\
    ~ In "010"%char (list_ascii_of_string (Error errDomainNotValidText err)) /\
    ~ In "013"%char (list_ascii_of_string (Error errDomainNotValidText err)).
Proof.
  intros Hrun Hsent Hbody Hdecode Hbad.
  destruct (Update_two_exchanges _ _ _ _ _ _ _ Hrun Hsent)
    as (rs & raw' & cd & R' & a & i & raw & _ & _ & _ & _ & _ & _
        & _ & _ & Hraw & ->).
  simpl in Hraw. rewrite Hbody in Hraw. subst raw.
  rewrite Hdecode.
  assert (bool_decide (cr_Status result ≠ "success")
          || bool_decide (cr_AnswerStatus (cr_Answer result) ≠ "success")
          = true) as ->.
  { apply orb_true_iff.
    destruct Hbad; [left | right]; by apply bool_decide_eq_true. }
  eexists. split; [done |]. split; [done |].
  cbn [Error]. rewrite list_ascii_of_string_app.
  split; intros [Hin | Hin]%in_app_or.
  - revert Hin. cbv. intuition discriminate.
  - by apply ToSingleLine_no_control in Hin.
  - revert Hin. cbv. intuition discriminate.
  - by apply ToSingleLine_no_control in Hin.
Qed.

End UpdateFacts.

(** *** The provider on the test double *)

Section Examples.

Import double.

(** C7 does not hold as stated: a blob without credentials and with a valid
    domain yields a provider whose login and password are empty. *)
Lemma New_empty_credentials :
  New (js "{'domain':'example.com','priority':10}") "example.com" "@" =
    (Some {| domain := "example.com"; target := "example.com"; owner := "@";
             login := EmptyString; password := EmptyString; priority := 10 |},
     None).
Proof. vm_compute. reflexivity. Qed.

Lemma New_keeps_credentials_witness :
  New (js "{'login':'user','password':'','domain':'example.com'}")
      "example.com" "@" =
    (Some {| domain := "example.com"; target := "example.com"; owner := "@";
             login := "user"; password := EmptyString; priority := 0 |},
     None).
Proof.
  apply (New_keeps_credentials
           (js "{'login':'user','password':'','domain':'example.com'}")
           "example.com" "@"
           {| Login := "user"; Password := EmptyString; Domain := "example.com";
              Priority := 0 |}).
  - vm_compute. reflexivity.
  - vm_compute. reflexivity.
Defined.

Lemma New_invalid_domain_witness :
  exists err,
    New (js "{'login':'user','password':'secret','domain':'exa mple.com'}")
        "example.com" "@" = (None, Some err) /\
    Is err ErrDomainNotValid = true /\
    Is err (errorString "invalid domain: exa mple.com") = true.
Proof.
  apply (New_invalid_domain
           (js "{'login':'user','password':'secret','domain':'exa mple.com'}")
           "example.com" "@"
           {| Login := "user"; Password := "secret";
              Domain := "exa mple.com"; Priority := 0 |}).
  - vm_compute. reflexivity.
  - vm_compute. reflexivity.
Defined.

Lemma apiCall_request_witness :
  exists request : Request,
    Method request = "GET" /\
    Scheme (Url request) = "https" /\
    Host (Url request) = "api.beget.com" /\
    Path (Url request) = "api/dns/getData" /\
    Body request = None /\
    Header request !! "Accept" = Some ["application/json"] /\
    Header request !! "User-Agent" = Some ["DDNS-Updater"].
Proof.
  eexists.
  edestruct (apiCall_request scripted example_provider "api/dns/getData"
               (js "{'fqdn':'example.com'}") (start [ok 200 example_getData]))
    as (HM & HS & HH & HP & HB & HA & HU & _).
  - apply surjective_pairing.
  - reflexivity.
  - exact (conj HM (conj HS (conj HH (conj HP (conj HB (conj HA HU)))))).
Defined.

Lemma apiCall_status_witness :
  (exists err,
     (apiCall scripted example_provider "/api/dns/changeRecords"
        (js "{'fqdn':'example.com'}") (start [ok 500 "Internal Server Error"])).1
     = ("Internal Server Error", Some err)) /\
  (apiCall scripted example_provider "/api/dns/changeRecords"
     (js "{'fqdn':'example.com'}") (start [ok 200 example_changeRecords])).1
  = (example_changeRecords, None).
Proof.
  split.
  - eapply (apiCall_status scripted example_provider "/api/dns/changeRecords"
              (js "{'fqdn':'example.com'}")
              (start [ok 500 "Internal Server Error"])).
    + apply surjective_pairing.
    + reflexivity.
    + reflexivity.
    + simpl. lia.
  - eapply (apiCall_status scripted example_provider "/api/dns/changeRecords"
              (js "{'fqdn':'example.com'}")
              (start [ok 200 example_changeRecords])).
    + apply surjective_pairing.
    + reflexivity.
    + reflexivity.
    + reflexivity.
Defined.

(** The provider answers an unknown domain with an error envelope. *)
Lemma Update_fetch_rejected_witness :
  let run :=
    Update scripted example_provider example_ip
      (start [ok 200 (js "{'status':'error','error_text':'No such domain'}");
              ok 200 example_changeRecords]) in
  (exists err, run.1 = Returned zeroAddr (Some err)) /\
  drop 1 (sent run.2) = [].
Proof.
  eapply (Update_fetch_rejected scripted example_provider example_ip
            (start [ok 200
                      (js "{'status':'error','error_text':'No such domain'}");
                    ok 200 example_changeRecords])).
  - apply surjective_pairing.
  - reflexivity.
  - reflexivity.
  - reflexivity.
  - left. vm_compute. discriminate.
Defined.

(** The example of the specification: the TXT record is sent back as it
    was fetched, next to the new A record. *)
Lemma Update_write_payload_witness :
  exists (request2 : Request) (newAEntryJSON : RawMessage)
         (records : gmap string RawMessage) (inputDataRaw : bytes)
         (v : Values),
    Marshal [ {| a_Priority := priority example_provider;
                 a_Value := Addr_String example_ip |} ]
      = inr newAEntryJSON /\
    records !! "A" = Some newAEntryJSON /\
    (forall k, k <> "A" ->
       records !! k =
         ({[ "TXT" := js "['v=spf1']" ]} : gmap string RawMessage) !! k) /\
    Marshal {| in_FQDN := target example_provider;
               in_Records := Some records |}
      = inr inputDataRaw /\
    Path (Url request2) = "/api/dns/changeRecords" /\
    RawQuery (Url request2) = Values_Encode v /\
    v !! "input_data" = Some [inputDataRaw].
Proof.
  eexists.
  eapply (Update_write_payload scripted example_provider example_ip
            (start [ok 200 example_getData; ok 200 example_changeRecords])).
  - apply surjective_pairing.
  - reflexivity.
  - reflexivity.
  - reflexivity.
  - vm_compute. reflexivity.
Defined.

Example Update_example_payload :
  snd <$> sent (Update scripted example_provider example_ip
                  (start [ok 200 example_getData;
                          ok 200 example_changeRecords])).2
    = [ok 200 example_getData; ok 200 example_changeRecords] /\
  Marshal {| in_FQDN := "example.com";
             in_Records :=
               Some (<["A" := js "[{'priority':10,'value':'203.0.113.5'}]"]>
                       {[ "TXT" := js "['v=spf1']" ]}) |}
    = inr (js "{'fqdn':'example.com','records':{'A':[{'priority':10,'value':'203.0.113.5'}],'TXT':['v=spf1']}}").
Proof. split; vm_compute; reflexivity. Qed.

Lemma Update_write_success_witness :
  (Update scripted example_provider example_ip
     (start [ok 200 example_getData; ok 200 example_changeRecords])).1
  = Returned example_ip None.
Proof.
  eapply (Update_write_success scripted example_provider example_ip
            (start [ok 200 example_getData; ok 200 example_changeRecords])).
  - apply surjective_pairing.
  - reflexivity.
  - reflexivity.
  - reflexivity.
  - reflexivity.
  - reflexivity.
Defined.

(** A getData answer that passes the checks without a record map: the
    assignment to the nil map panics, after one exchange. *)
Example Update_nil_records_panics :
  let run :=
    Update scripted example_provider example_ip
      (start [ok 200 (js "{'Status':'success','Answer':{'Status':'success','Result':{'fqdn':'example.com'}}}");
              ok 200 example_changeRecords]) in
  run.1 = Panicked "assignment to entry in nil map" /\
  length (sent run.2) = 1%nat.
Proof. split; vm_compute; reflexivity. Qed.

(** A rejection whose body spans two lines. *)
Lemma Update_write_rejected_witness :
  let body :=
    js ("{'status':'error'," ++ String "010" "'error_text':'Bad request'}") in
  exists err,
    (Update scripted example_provider example_ip
       (start [ok 200 example_getData; ok 200 body])).1
    = Returned zeroAddr (Some err) /\
    Error errDomainNotValidText err =
      "changeRequest response doesn't indicate success: " ++
      utils.ToSingleLine body /\
    ~ In "010"%char (list_ascii_of_string (Error errDomainNotValidText err)) /\
    ~ In "013"%char (list_ascii_of_string (Error errDomainNotValidText err)).
Proof.
  eapply (Update_write_rejected scripted example_provider example_ip
            (start [ok 200 example_getData;
                    ok 200 (js ("{'status':'error'," ++
                                String "010" "'error_text':'Bad request'}"))])).
  - apply surjective_pairing.
  - reflexivity.
  - reflexivity.
  - reflexivity.
  - left. vm_compute. discriminate.
Defined.

Lemma Update_error_zero_witness :
  exists (newIP : ip4) (err : error) (st' : St (list (error + Response))),
    Update scripted example_provider example_ip
      (start [inl (errorString "context deadline exceeded")])
    = (Returned newIP (Some err), st') /\
    newIP = zeroAddr /\ IsValid newIP = false.
Proof.
  eexists _, _, _. split; [reflexivity |].
  eapply (Update_error_zero scripted example_provider example_ip _
            (start [inl (errorString "context deadline exceeded")])).
  reflexivity.
Defined.

(** C4: the error of the changeRecords call is dropped.  A changeRecords
    response with status code 500 whose body reads as a success makes
    [Update] return the address and no error, although [apiCall] returned
    an error; and when the client fails on the changeRecords request, the
    error [Update] returns is that of decoding the empty body and does not
    wrap the error of the client. *)
Theorem Update_write_error_dropped :
  let failure := errorString "context deadline exceeded" in
  (Update scripted example_provider example_ip
     (start [ok 200 example_getData; ok 500 example_changeRecords])).1
  = Returned example_ip None /\
  (exists err,
     (apiCall scripted example_provider "/api/dns/changeRecords"
        (js "{'fqdn':'example.com'}") (start [ok 500 example_changeRecords])).1
     = (example_changeRecords, Some err)) /\
  exists err,
    (Update scripted example_provider example_ip
       (start [ok 200 example_getData; inl failure])).1
    = Returned zeroAddr (Some err) /\
    Is err failure = false.
Proof.
  split; [| split].
  - vm_compute. reflexivity.
  - eexists. vm_compute. reflexivity.
  - eexists. split; vm_compute; reflexivity.
Qed.

End Examples.

(** *** Further properties of the authenticated GET *)

Section WrappedErrors.

Context `{!Upstream}.

(** An error wrapped by [fmt.Errorf] with [%w] is found by [errors.Is],
    and so is every error it wraps in turn. *)
Lemma Is_Errorf_w (pre : string) (err e : error) :
  Is err e = true -> Is (Errorf_w pre err) e = true.
Proof.
  intros Hin. unfold Errorf_w. cbn [Is]. rewrite Hin.
  by rewrite orb_true_r.
Qed.

End WrappedErrors.

Section apiCallRuns.

Context `{!Upstream, !url.Lib}.
Context {World : Type} (client : Client World).

Local Abbreviation address p URLEndpoint inputJSON :=
  {| Scheme := "https"; Host := "api.beget.com"; Path := URLEndpoint;
     RawQuery := Values_Encode (apiCall_values p inputJSON) |}.

Local Abbreviation built p URLEndpoint inputJSON :=
  (headers.SetAccept
     (headers.SetUserAgent
        {| Method := MethodGet; Url := address p URLEndpoint inputJSON;
           Header := ∅; Body := None |})
     "application/json").

(** What [apiCall] returns once the client gave [r]. *)
Local Abbreviation reply URLEndpoint r :=
  (match r with
   | inl err =>
       (EmptyString,
        Some (Errorf_w (URLEndpoint ++ ": Failed performing HTTP request: ")
                err))
   | inr response =>
       match ReadAll_Body response with
       | inl err =>
           (EmptyString,
            Some (Errorf_w (URLEndpoint ++ ": Failed reading response body: ")
                    err))
       | inr b =>
           if bool_decide (StatusCode response ≠ StatusOK) then
             (b, Some (errorString
                         (URLEndpoint ++ ": HTTP status is " ++
                          pretty (StatusCode response))))
           else (b, None)
       end
   end).

(** The two ways [apiCall] runs, with what it returns in each. *)
Lemma apiCall_run (p : Provider) (URLEndpoint : string) (inputJSON : bytes)
    (st st' : St World) (out : bytes * option error) :
  apiCall client p URLEndpoint inputJSON st = (out, st') ->
  (exists e,
     Parse_error (address p URLEndpoint inputJSON) = Some e /\ st' = st /\
     out = (EmptyString,
            Some (Errorf_w (URLEndpoint ++ ": Failed creating HTTP request: ")
                    e)))
  \/ (exists r w,
        Parse_error (address p URLEndpoint inputJSON) = None /\
        client (built p URLEndpoint inputJSON) (world st) = (r, w) /\
        st' = {| world := w;
                 sent := sent st ++ [(built p URLEndpoint inputJSON, r)] |} /\
        out = reply URLEndpoint r).
Proof.
  unfold apiCall, NewRequestWithContext, client_Do. intros Hcall.
  destruct (Parse_error _) as [e |].
  { left. exists e. by simplify_eq. }
  right. destruct (client _ (world st)) as [r w] eqn:Hdo.
  exists r, w. cbn [Path] in Hcall.
  destruct r as [e | response]; [by simplify_eq |].
  destruct (ReadAll_Body response) as [e | body]; [by simplify_eq |].
  case_bool_decide; by simplify_eq.
Qed.

(** X1: when the client fails on the request, or the body of its response
    cannot be read (whatever the status code), [apiCall] returns an empty
    body and an error that wraps the failure. *)
Theorem apiCall_transport_error (p : Provider) (URLEndpoint : string)
    (inputJSON : bytes) (st st' : St World) (out : bytes * option error)
    (request : Request) (r : error + Response) (e : error) :
  apiCall client p URLEndpoint inputJSON st = (out, st') ->
  sent st' = (sent st ++ [(request, r)])%list ->
  r = inl e
  \/ (exists response, r = inr response /\ ReadAll_Body response = inl e) ->
  exists err, out = (EmptyString, Some err) /\ Is err e = true.
Proof.
  intros Hcall Hsent Hfail.
  apply apiCall_run in Hcall
    as [(e' & _ & -> & _) | (r' & w & _ & _ & -> & ->)].
  { by apply sent_absurd in Hsent. }
  cbn [sent] in Hsent. simplify_list_eq.
  destruct Hfail as [-> | (response & -> & Hbody)]; [| rewrite Hbody];
    (eexists; split; [done |]; apply Is_Errorf_w, Is_refl).
Qed.

(** X2: when the URL of the request does not parse, [apiCall] fails with an
    error that wraps the parse error, and the client is not called: nothing
    is sent and the outside world is as it was. *)
Theorem apiCall_unparsable_url (p : Provider) (URLEndpoint : string)
    (inputJSON : bytes) (st : St World) (e : error) :
  Parse_error
    {| Scheme := "https"; Host := "api.beget.com"; Path := URLEndpoint;
       RawQuery := Values_Encode (apiCall_values p inputJSON) |} = Some e ->
  exists err,
    apiCall client p URLEndpoint inputJSON st = ((EmptyString, Some err), st)
    /\ Is err e = true.
Proof.
  intros Hparse. unfold apiCall, NewRequestWithContext. rewrite Hparse.
  eexists. split; [done |]. apply Is_Errorf_w, Is_refl.
Qed.

(** X3: [apiCall] returns no error only when the client answered with a
    response of status 200 whose body could be read; the bytes it returns
    are then that body, and the exchange is the one request it made. *)
Theorem apiCall_success_inv (p : Provider) (URLEndpoint : string)
    (inputJSON : bytes) (st st' : St World) (b : bytes) :
  apiCall client p URLEndpoint inputJSON st = ((b, None), st') ->
  exists request response,
    sent st' = (sent st ++ [(request, inr response)])%list /\
    StatusCode response = 200 /\
    ReadAll_Body response = inr b.
Proof.
  intros Hcall.
  apply apiCall_run in Hcall
    as [(e & _ & _ & [=]) | (r & w & _ & _ & -> & Hreply)].
  destruct r as [e | response]; [done |].
  destruct (ReadAll_Body response) as [e | body] eqn:Hbody; [done |].
  case_bool_decide as Hcode; [done |].
  simplify_eq. by exists (built p URLEndpoint inputJSON), response.
Qed.

(** The run of [apiCall] when this URL parses and the client answers 200
    with a body that can be read. *)
Lemma apiCall_answered (p : Provider) (URLEndpoint : string)
    (inputJSON : bytes) (st : St World) (response : Response) (w : World)
    (body : bytes) :
  Parse_error (address p URLEndpoint inputJSON) = None ->
  client (built p URLEndpoint inputJSON) (world st) = (inr response, w) ->
  StatusCode response = 200 ->
  ReadAll_Body response = inr body ->
  apiCall client p URLEndpoint inputJSON st =
    ((body, None),
     {| world := w;
        sent := sent st ++ [(built p URLEndpoint inputJSON, inr response)] |}).
Proof.
  intros Hparse Hdo Hcode Hbody.
  unfold apiCall, NewRequestWithContext, client_Do.
  rewrite Hparse, Hdo, Hbody.
  by rewrite bool_decide_false by (unfold StatusOK; intros Hne; by apply Hne).
Qed.

End apiCallRuns.

(** *** Further properties of the update *)

Section UpdateRuns.

Context `{!Upstream, !url.Lib}.
Context `{!JSON getDataResponse, !JSON changeRecordsResponse,
          !JSON (gmap string string), !JSON (list AEntry), !JSON inputData}.
Context {Addr : Type} `{!Netip Addr}.
Context {World : Type} (client : Client World).

Local Abbreviation address p URLEndpoint inputJSON :=
  {| Scheme := "https"; Host := "api.beget.com"; Path := URLEndpoint;
     RawQuery := Values_Encode (apiCall_values p inputJSON) |}.

Local Abbreviation built p URLEndpoint inputJSON :=
  (headers.SetAccept
     (headers.SetUserAgent
        {| Method := MethodGet; Url := address p URLEndpoint inputJSON;
           Header := ∅; Body := None |})
     "application/json").

Local Abbreviation reply URLEndpoint r :=
  (match r with
   | inl err =>
       (EmptyString,
        Some (Errorf_w (URLEndpoint ++ ": Failed performing HTTP request: ")
                err))
   | inr response =>
       match ReadAll_Body response with
       | inl err =>
           (EmptyString,
            Some (Errorf_w (URLEndpoint ++ ": Failed reading response body: ")
                    err))
       | inr b =>
           if bool_decide (StatusCode response ≠ StatusOK) then
             (b, Some (errorString
                         (URLEndpoint ++ ": HTTP status is " ++
                          pretty (StatusCode response))))
           else (b, None)
       end
   end).

Local Abbreviation accepted p currentData :=
  (gd_Status currentData = "success" /\
   gd_AnswerStatus (gd_Answer currentData) = "success" /\
   gd_FQDN (gd_Result (gd_Answer currentData)) = target p).

Local Abbreviation verdict ip raw :=
  (match Unmarshal raw with
   | inl err =>
       Returned zeroAddr
         (Some (Errorf_w "Failed unmarshalling changeRecords response: " err))
   | inr result =>
       if bool_decide (cr_Status result ≠ "success")
          || bool_decide (cr_AnswerStatus (cr_Answer result) ≠ "success")
       then
         Returned zeroAddr
           (Some (errorString
                    ("changeRequest response doesn't indicate success: " ++
                     utils.ToSingleLine raw)))
       else Returned ip None
   end).

(** What [Update] does once the getData call gave back [raw] without
    error, in the state [st1]. *)
Local Abbreviation after_fetch p ip raw st1 out st' :=
  (match Unmarshal raw with
   | inl e =>
       st' = st1 /\
       out = Returned zeroAddr
               (Some (Errorf_w "Failed unmarshalling getData response: " e))
   | inr currentData =>
       (~ accepted p currentData /\ st' = st1 /\
        out = Returned zeroAddr
                (Some (errorString
                         "getData response doesn't indicate success")))
       \/ (accepted p currentData /\
           match Marshal [ {| a_Priority := priority p;
                              a_Value := Addr_String ip |} ] with
           | inl e =>
               st' = st1 /\
               out = Returned zeroAddr
                       (Some (Errorf_w "Couldn't marshal new A entry JSON: "
                                e))
           | inr newAEntryJSON =>
               match gd_Records (gd_Result (gd_Answer currentData)) with
               | None =>
                   st' = st1 /\ out = Panicked "assignment to entry in nil map"
               | Some R =>
                   match Marshal
                           {| in_FQDN := target p;
                              in_Records :=
                                Some (<["A" := newAEntryJSON]> R) |} with
                   | inl e =>
                       st' = st1 /\
                       out = Returned zeroAddr
                               (Some (Errorf_w "Couldn't marshal json: " e))
                   | inr inputDataRaw =>
                       exists raw2 err2,
                         apiCall client p "/api/dns/changeRecords"
                           inputDataRaw st1 = ((raw2, err2), st') /\
                         out = verdict ip raw2
                   end
               end
           end)
   end).

(** The runs of [Update], step by step. *)
Lemma Update_trace (p : Provider) (ip : Addr) (st st' : St World)
    (out : outcome Addr) :
  Update client p ip st = (out, st') ->
  (exists e,
     Marshal ({[ "fqdn" := target p ]} : gmap string string) = inl e /\
     st' = st /\
     out = Returned zeroAddr
             (Some (Errorf_w "Couldn't marshal getData request: " e)))
  \/ (exists getDataRequest raw err st1,
        Marshal ({[ "fqdn" := target p ]} : gmap string string)
          = inr getDataRequest /\
        apiCall client p "api/dns/getData" getDataRequest st
          = ((raw, err), st1) /\
        match err with
        | Some e =>
            st' = st1 /\
            out = Returned zeroAddr
                    (Some (Errorf_w "Calling getData failed: " e))
        | None => after_fetch p ip raw st1 out st'
        end).
Proof.
  intros Hrun. unfold Update in Hrun.
  destruct (Marshal {[ "fqdn" := target p ]}) as [e | getDataRequest].
  { left. exists e. by simplify_eq. }
  right.
  destruct (apiCall _ _ "api/dns/getData" _ _) as [[raw err] st1] eqn:Hcall.
  exists getDataRequest, raw, err, st1. split; [done |]. split; [done |].
  destruct err as [e |]; [by simplify_eq |].
  destruct (Unmarshal raw) as [e | currentData]; [by simplify_eq |].
  destruct (_ || _) eqn:Hcheck.
  { left. simplify_eq. split; [| done].
    intros (Hs1 & Hs2 & Hs3).
    rewrite !bool_decide_false in Hcheck by (intros Hne; by apply Hne).
    done. }
  right.
  apply orb_false_iff in Hcheck as [Hcheck Hfqdn].
  apply orb_false_iff in Hcheck as [Hstatus Hanswer].
  apply bool_decide_eq_false, dec_stable in Hstatus, Hanswer, Hfqdn.
  split; [done |].
  destruct (Marshal [_]) as [e | newAEntryJSON]; [by simplify_eq |].
  cbn [in_Records in_FQDN] in Hrun.
  destruct (gd_Records _) as [R |]; cbn [map_assign] in Hrun;
    [| by simplify_eq].
  destruct (Marshal {| in_FQDN := _ |}) as [e | inputDataRaw];
    [by simplify_eq |].
  destruct (apiCall _ _ "/api/dns/changeRecords" _ _)
    as [[raw2 err2] st2] eqn:Hcall2.
  exists raw2, err2.
  destruct (Unmarshal raw2); [by simplify_eq |].
  destruct (_ || _); by simplify_eq.
Qed.

(** After a getData call without error the record of exchanges only
    grows. *)
Lemma after_fetch_sent (p : Provider) (ip : Addr) (raw : bytes)
    (st1 st' : St World) (out : outcome Addr) :
  after_fetch p ip raw st1 out st' ->
  exists more, sent st' = (sent st1 ++ more)%list /\ (length more <= 1)%nat.
Proof.
  intros Hafter.
  assert (st' = st1 -> exists more,
            sent st' = (sent st1 ++ more)%list /\ (length more <= 1)%nat)
    as Hsame.
  { intros ->. exists []. split; [by rewrite app_nil_r | simpl; lia]. }
  destruct (Unmarshal raw) as [e | currentData];
    [by apply Hsame, Hafter |].
  destruct Hafter as [(_ & Hst & _) | (_ & Hafter)]; [by apply Hsame |].
  destruct (Marshal [_]) as [e | newAEntryJSON];
    [by apply Hsame, Hafter |].
  destruct (gd_Records _) as [R |]; [| by apply Hsame, Hafter].
  destruct (Marshal {| in_FQDN := _ |}) as [e | inputDataRaw];
    [by apply Hsame, Hafter |].
  destruct Hafter as (raw2 & err2 & Hcall & _).
  apply apiCall_run in Hcall as [(e & _ & -> & _) | (r & w & _ & _ & -> & _)].
  - by apply Hsame.
  - eexists. split; [done |]. simpl. lia.
Qed.

(** The first exchange of a run is the getData exchange, and the run goes
    on from what the client answered. *)
Lemma Update_first_exchange (p : Provider) (ip : Addr) (st st' : St World)
    (out : outcome Addr) (request : Request) (r : error + Response)
    (rest : list (Request * (error + Response))) :
  Update client p ip st = (out, st') ->
  sent st' = (sent st ++ (request, r) :: rest)%list ->
  exists getDataRequest w1,
    Marshal ({[ "fqdn" := target p ]} : gmap string string)
      = inr getDataRequest /\
    request = built p "api/dns/getData" getDataRequest /\
    match reply "api/dns/getData" r with
    | (_, Some e) =>
        rest = [] /\
        out = Returned zeroAddr (Some (Errorf_w "Calling getData failed: " e))
    | (raw, None) =>
        after_fetch p ip raw
          {| world := w1; sent := sent st ++ [(request, r)] |} out st'
    end.
Proof.
  intros Hrun Hsent.
  apply Update_trace in Hrun
    as [(e & _ & -> & _) | (q & raw & err & st1 & Hq & Hcall & Hrest)].
  { by apply sent_absurd in Hsent. }
  apply apiCall_run in Hcall
    as [(e & _ & -> & [= -> ->]) | (r' & w1 & _ & _ & -> & Hreply)].
  { destruct Hrest as [-> _]. by apply sent_absurd in Hsent. }
  exists q, w1. split; [done |].
  assert ((built p "api/dns/getData" q, r') = (request, r) /\
          (err <> None -> rest = [])) as [[= <- <-] Hnil].
  { destruct err as [e |].
    - destruct Hrest as [-> _]. cbn [sent] in Hsent. by simplify_list_eq.
    - apply after_fetch_sent in Hrest as (more & Hmore & _).
      cbn [sent] in Hmore. rewrite Hmore, <- app_assoc in Hsent.
      by simplify_list_eq. }
  split; [done |]. rewrite <- Hreply.
  destruct err as [e |]; [| done].
  destruct Hrest as [_ ->]. split; [by apply Hnil | done].
Qed.

(** X4: when the client fails on the getData request, or the body of the
    getData response cannot be read, [Update] returns an error that wraps
    the failure, and no further request is made. *)
Theorem Update_fetch_transport_error (p : Provider) (ip : Addr)
    (st st' : St World) (out : outcome Addr) (request : Request)
    (r : error + Response) (rest : list (Request * (error + Response)))
    (e : error) :
  Update client p ip st = (out, st') ->
  sent st' = (sent st ++ (request, r) :: rest)%list ->
  r = inl e
  \/ (exists response, r = inr response /\ ReadAll_Body response = inl e) ->
  exists err,
    out = Returned zeroAddr (Some err) /\ Is err e = true /\ rest = [].
Proof.
  intros Hrun Hsent Hfail.
  destruct (Update_first_exchange _ _ _ _ _ _ _ _ Hrun Hsent)
    as (q & w1 & _ & _ & Hgo).
  destruct Hfail as [-> | (response & -> & Hbody)];
    [| rewrite Hbody in Hgo]; destruct Hgo as [-> ->];
    (eexists; split; [done |]; split; [| done]);
    do 2 apply Is_Errorf_w; apply Is_refl.
Qed.

(** X5: when the getData response has a status code other than 200,
    [Update] returns an error and makes no further request, whatever the
    body of the response says. *)
Theorem Update_fetch_status_not_ok (p : Provider) (ip : Addr)
    (st st' : St World) (out : outcome Addr) (request : Request)
    (response : Response) (rest : list (Request * (error + Response))) :
  Update client p ip st = (out, st') ->
  sent st' = (sent st ++ (request, inr response) :: rest)%list ->
  StatusCode response <> 200 ->
  (exists err, out = Returned zeroAddr (Some err)) /\ rest = [].
Proof.
  intros Hrun Hsent Hcode.
  destruct (Update_first_exchange _ _ _ _ _ _ _ _ Hrun Hsent)
    as (q & w1 & _ & _ & Hgo).
  destruct (ReadAll_Body response) as [e | body].
  - destruct Hgo as [-> ->]. eauto.
  - rewrite bool_decide_true in Hgo by done. destruct Hgo as [-> ->]. eauto.
Qed.

(** X6: when the body of a 200 getData response does not decode, [Update]
    returns an error that wraps the error of the decoder, and makes no
    further request. *)
Theorem Update_fetch_undecodable (p : Provider) (ip : Addr)
    (st st' : St World) (out : outcome Addr) (request : Request)
    (response : Response) (rest : list (Request * (error + Response)))
    (raw : bytes) (e : error) :
  Update client p ip st = (out, st') ->
  sent st' = (sent st ++ (request, inr response) :: rest)%list ->
  StatusCode response = 200 ->
  ReadAll_Body response = inr raw ->
  Unmarshal (T := getDataResponse) raw = inl e ->
  exists err,
    out = Returned zeroAddr (Some err) /\ Is err e = true /\ rest = [].
Proof.
  intros Hrun Hsent Hcode Hbody Hdecode.
  destruct (Update_first_exchange _ _ _ _ _ _ _ _ Hrun Hsent)
    as (q & w1 & _ & _ & Hgo).
  rewrite Hbody in Hgo.
  rewrite bool_decide_false in Hgo
    by (unfold StatusOK; intros Hne; by apply Hne).
  rewrite Hdecode in Hgo. destruct Hgo as [-> ->].
  cbn [sent] in Hsent.
  eexists. split; [done |]. split; [apply Is_Errorf_w, Is_refl |].
  by simplify_list_eq.
Qed.

(** X7: when a 200 getData response passes the three checks but carries no
    record map, and the new A entry encodes, [Update] panics on the
    assignment to the nil map: it returns nothing, after the getData
    exchange alone. *)
Theorem Update_nil_records_panic (p : Provider) (ip : Addr)
    (st st' : St World) (out : outcome Addr) (request : Request)
    (response : Response) (rest : list (Request * (error + Response)))
    (raw newAEntryJSON : bytes) (currentData : getDataResponse) :
  Update client p ip st = (out, st') ->
  sent st' = (sent st ++ (request, inr response) :: rest)%list ->
  StatusCode response = 200 ->
  ReadAll_Body response = inr raw ->
  Unmarshal raw = inr currentData ->
  gd_Status currentData = "success" ->
  gd_AnswerStatus (gd_Answer currentData) = "success" ->
  gd_FQDN (gd_Result (gd_Answer currentData)) = target p ->
  gd_Records (gd_Result (gd_Answer currentData)) = None ->
  Marshal [ {| a_Priority := priority p; a_Value := Addr_String ip |} ]
    = inr newAEntryJSON ->
  out = Panicked "assignment to entry in nil map" /\ rest = [].
Proof.
  intros Hrun Hsent Hcode Hbody Hdecode Hs1 Hs2 Hs3 HR HA.
  destruct (Update_first_exchange _ _ _ _ _ _ _ _ Hrun Hsent)
    as (q & w1 & _ & _ & Hgo).
  rewrite Hbody in Hgo.
  rewrite bool_decide_false in Hgo
    by (unfold StatusOK; intros Hne; by apply Hne).
  rewrite Hdecode in Hgo.
  destruct Hgo as [(Hno & _) | (_ & Hgo)]; [by destruct Hno |].
  rewrite HA, HR in Hgo. destruct Hgo as [-> ->].
  cbn [sent] in Hsent. split; [done |]. by simplify_list_eq.
Qed.




(** X10: provided the decoder refuses the empty input, [Update] returns no
    error only after a full reconciliation: the address returned is the one
    given, exactly two exchanges were made, the getData response had status
    200 and passed the three checks, and the body of the changeRecords
    response decoded to two ["success"] statuses. *)
Theorem Update_success_inv (p : Provider) (ip newIP : Addr)
    (st st' : St World) (empty : error) :
  Unmarshal (T := changeRecordsResponse) EmptyString = inl empty ->
  Update client p ip st = (Returned newIP None, st') ->
  newIP = ip /\
  exists request1 response1 raw1 currentData request2 response2 raw2 result,
    sent st' =
      (sent st ++ [(request1, inr response1); (request2, inr response2)])%list
    /\ StatusCode response1 = 200
    /\ ReadAll_Body response1 = inr raw1
    /\ Unmarshal raw1 = inr currentData
    /\ gd_Status currentData = "success"
    /\ gd_AnswerStatus (gd_Answer currentData) = "success"
    /\ gd_FQDN (gd_Result (gd_Answer currentData)) = target p
    /\ ReadAll_Body response2 = inr raw2
    /\ Unmarshal raw2 = inr result
    /\ cr_Status result = "success"
    /\ cr_AnswerStatus (cr_Answer result) = "success".
Proof.
  intros Hempty Hrun.
  apply Update_inv in Hrun
    as [(_ & err & [=]) | [(x & _ & err & [=]) | [Hpanic | Hwrite]]].
  { by destruct Hpanic as (? & ? & ? & ? & _ & _ & _ & _ & _ & [=]). }
  destruct Hwrite as (rq & rs & raw & cd & R & a & i & st1 & raw2 & err2
                      & Hs & Hcode & Hb & Hd & (Hs1 & Hs2 & Hs3) & _ & _ & _
                      & Hcall & Hout).
  assert (exists result,
            Unmarshal raw2 = inr result /\ cr_Status result = "success" /\
            cr_AnswerStatus (cr_Answer result) = "success" /\ newIP = ip)
    as (result & Hresult & Hr1 & Hr2 & ->).
  { destruct (Unmarshal raw2) as [e | result]; [done |].
    exists result. split; [done |].
    destruct (bool_decide (cr_Status result ≠ "success")) eqn:H1;
      [done |].
    destruct (bool_decide (cr_AnswerStatus (cr_Answer result) ≠ "success"))
      eqn:H2; [done |].
    apply bool_decide_eq_false, dec_stable in H1, H2.
    cbn [orb] in Hout. by simplify_eq. }
  split; [done |].
  apply apiCall_run in Hcall
    as [(e & _ & _ & [= -> _]) | (r2 & w2 & _ & _ & -> & Hreply)];
    [congruence |].
  destruct r2 as [e | response2]; [simplify_eq; congruence |].
  destruct (ReadAll_Body response2) as [e | body] eqn:Hbody2;
    [simplify_eq; congruence |].
  assert (raw2 = body) as -> by (case_bool_decide; by simplify_eq).
  exists rq, rs, raw, cd, (built p "/api/dns/changeRecords" i), response2,
    body, result.
  cbn [sent]. rewrite Hs, <- app_assoc. done.
Qed.

(** X11: when the body of the changeRecords response does not decode,
    whatever its status code, [Update] returns an error that wraps the
    error of the decoder. *)
Theorem Update_write_undecodable (p : Provider) (ip : Addr)
    (st st' : St World) (out : outcome Addr)
    (x1 : Request * (error + Response)) (request2 : Request)
    (response2 : Response) (raw2 : bytes) (e : error) :
  Update client p ip st = (out, st') ->
  sent st' = (sent st ++ [x1; (request2, inr response2)])%list ->
  ReadAll_Body response2 = inr raw2 ->
  Unmarshal (T := changeRecordsResponse) raw2 = inl e ->
  exists err, out = Returned zeroAddr (Some err) /\ Is err e = true.
Proof.
  intros Hrun Hsent Hbody Hdecode.
  destruct (Update_two_exchanges _ _ _ _ _ _ _ _ Hrun Hsent)
    as (rs & raw' & cd & R' & a & i & raw & _ & _ & _ & _ & _ & _
        & _ & _ & Hraw & ->).
  simpl in Hraw. rewrite Hbody in Hraw. subst raw. rewrite Hdecode.
  eexists. split; [done |]. apply Is_Errorf_w, Is_refl.
Qed.

(** X12: the message of every error [Update] returns begins with the
    description of the phase that failed, one of eight fixed texts. *)
Theorem Update_error_context (p : Provider) (ip newIP : Addr)
    (st st' : St World) (err : error) :
  Update client p ip st = (Returned newIP (Some err), st') ->
  exists phase detail,
    In phase
       ["Couldn't marshal getData request: ";
        "Calling getData failed: ";
        "Failed unmarshalling getData response: ";
        "getData response doesn't indicate success";
        "Couldn't marshal new A entry JSON: ";
        "Couldn't marshal json: ";
        "Failed unmarshalling changeRecords response: ";
        "changeRequest response doesn't indicate success: "] /\
    Error errDomainNotValidText err = phase ++ detail.
Proof.
  intros Hrun. unfold Update in Hrun.
  repeat case_match; simplify_eq; cbn [Error Errorf_w];
    first
      [ eexists _, _; split; [| reflexivity]; simpl; tauto
      | exists "getData response doesn't indicate success", EmptyString;
        split; [simpl; tauto | reflexivity] ].
Qed.

(** X13: the full reconciliation.  When the target encodes, both URLs
    parse, the client answers the getData request with a 200 response that
    passes the three checks and carries the record map [R], the new A entry
    and the payload encode, and the client answers the changeRecords
    request with a 200 response whose body decodes to two ["success"]
    statuses, then [Update] returns the address it was given and no error,
    having made exactly these two exchanges. *)
Theorem Update_full_reconciliation (p : Provider) (ip : Addr)
    (st : St World) (getDataRequest raw1 newAEntryJSON inputDataRaw raw2 : bytes)
    (response1 response2 : Response) (w1 w2 : World)
    (currentData : getDataResponse) (R : gmap string RawMessage)
    (result : changeRecordsResponse) :
  Marshal ({[ "fqdn" := target p ]} : gmap string string)
    = inr getDataRequest ->
  Parse_error (address p "api/dns/getData" getDataRequest) = None ->
  client (built p "api/dns/getData" getDataRequest) (world st)
    = (inr response1, w1) ->
  StatusCode response1 = 200 ->
  ReadAll_Body response1 = inr raw1 ->
  Unmarshal raw1 = inr currentData ->
  gd_Status currentData = "success" ->
  gd_AnswerStatus (gd_Answer currentData) = "success" ->
  gd_FQDN (gd_Result (gd_Answer currentData)) = target p ->
  gd_Records (gd_Result (gd_Answer currentData)) = Some R ->
  Marshal [ {| a_Priority := priority p; a_Value := Addr_String ip |} ]
    = inr newAEntryJSON ->
  Marshal {| in_FQDN := target p;
             in_Records := Some (<["A" := newAEntryJSON]> R) |}
    = inr inputDataRaw ->
  Parse_error (address p "/api/dns/changeRecords" inputDataRaw) = None ->
  client (built p "/api/dns/changeRecords" inputDataRaw) w1
    = (inr response2, w2) ->
  StatusCode response2 = 200 ->
  ReadAll_Body response2 = inr raw2 ->
  Unmarshal raw2 = inr result ->
  cr_Status result = "success" ->
  cr_AnswerStatus (cr_Answer result) = "success" ->
  Update client p ip st =
    (Returned ip None,
     {| world := w2;
        sent := sent st ++
          [(built p "api/dns/getData" getDataRequest, inr response1);
           (built p "/api/dns/changeRecords" inputDataRaw, inr response2)] |}).
Proof.
  intros Hq Hp1 Hdo1 Hc1 Hb1 Hd1 Hs1 Hs2 Hs3 HR HA Hi Hp2 Hdo2 Hc2 Hb2 Hd2
    Hr1 Hr2.
  unfold Update. rewrite Hq.
  rewrite (apiCall_answered client p _ _ st response1 w1 raw1) by done.
  rewrite Hd1, Hs1, Hs2, Hs3.
  rewrite !bool_decide_false by (intros Hne; by apply Hne).
  cbn [orb in_Records in_FQDN]. rewrite HA, HR. cbn [map_assign].
  rewrite Hi.
  rewrite (apiCall_answered client p _ _ _ response2 w2 raw2) by done.
  rewrite Hd2, Hr1, Hr2.
  rewrite !bool_decide_false by (intros Hne; by apply Hne).
  cbn [orb sent]. by rewrite <- app_assoc.
Qed.

End UpdateRuns.

(** *** Further properties of the construction *)

Section NewRuns.

Context `{!Upstream, !JSON extraSettings, !identity.Naming}.

(** X14: [New] returns a provider exactly when the blob decodes and the
    domain of the decoded settings passes the domain check; otherwise it
    returns an error.  It never returns both, nor neither. *)
Theorem New_succeeds_iff (data domain owner : string) :
  ((exists p, New data domain owner = (Some p, None)) <->
   (exists settings,
      Unmarshal data = inr settings /\ CheckDomain (Domain settings) = None))
  /\ ((exists p, New data domain owner = (Some p, None)) \/
      (exists err, New data domain owner = (None, Some err))).
Proof.
  unfold New.
  destruct (Unmarshal data) as [e | settings] eqn:Hdata.
  { split; [| eauto]. split; [by intros [p [=]] | by intros (s & [=] & _)]. }
  destruct (CheckDomain (Domain settings)) as [e |] eqn:Hcheck.
  - split; [| eauto]. split; [by intros [p [=]] |].
    intros (s & [= <-] & Hs). congruence.
  - split; [| left; eauto].
    split; [intros _; by exists settings | intros _; eauto].
Qed.

(** X15: what a constructed provider shows of itself comes from the
    [domain] and [owner] arguments of [New] alone: the blob, with its
    credentials and its own domain field, does not reach the name, the
    domain, the owner, the built domain name or the HTML row. *)
Theorem New_identity (data domain owner : string) (p : Provider) :
  New data domain owner = (Some p, None) ->
  identity.Domain p = domain /\
  identity.Owner p = owner /\
  identity.BuildDomainName p = identity.utils_BuildDomainName owner domain /\
  identity.String p =
    identity.ToString domain owner identity.Beget identity.IP4 /\
  identity.HTML p =
    (let q := String "034" EmptyString in
     let name := identity.utils_BuildDomainName owner domain in
     {| identity.html_Domain :=
          "<a href=" ++ q ++ "http://" ++ name ++ q ++ ">" ++ name ++ "</a>";
        identity.html_Owner := owner;
        identity.html_Provider :=
          "<a href=" ++ q ++ "https://beget.com" ++ q ++ ">Beget</a>";
        identity.html_IPVersion := identity.Version_String identity.IP4 |}).
Proof.
  unfold New. intros Hnew.
  destruct (Unmarshal data) as [e | settings]; [by simplify_eq |].
  destruct (CheckDomain _); by simplify_eq.
Qed.

End NewRuns.

(** *** The further properties on the test double *)

Section MoreExamples.

Import double double_more.

Lemma apiCall_transport_error_witness :
  exists err,
    (apiCall scripted example_provider "api/dns/getData"
       (js "{'fqdn':'example.com'}")
       (start [inl (errorString "dial tcp: i/o timeout")])).1
    = (EmptyString, Some err) /\
    Is err (errorString "dial tcp: i/o timeout") = true.
Proof.
  eapply (apiCall_transport_error scripted example_provider "api/dns/getData"
            (js "{'fqdn':'example.com'}")
            (start [inl (errorString "dial tcp: i/o timeout")])).
  - apply surjective_pairing.
  - reflexivity.
  - left. reflexivity.
Defined.

Lemma apiCall_unparsable_url_witness :
  exists err,
    @apiCall upstream refusing_url_Lib _ scripted example_provider
      "api/dns/getData" (js "{'fqdn':'example.com'}")
      (start [ok 200 example_getData])
    = ((EmptyString, Some err), start [ok 200 example_getData]) /\
    Is err (errorString "net/url: invalid URL") = true.
Proof.
  apply (@apiCall_unparsable_url upstream refusing_url_Lib _ scripted
           example_provider "api/dns/getData" (js "{'fqdn':'example.com'}")
           (start [ok 200 example_getData])).
  reflexivity.
Defined.

Lemma apiCall_success_inv_witness :
  exists request response,
    sent (apiCall scripted example_provider "api/dns/getData"
            (js "{'fqdn':'example.com'}")
            (start [ok 200 example_getData])).2
    = [(request, inr response)] /\
    StatusCode response = 200 /\
    ReadAll_Body response = inr example_getData.
Proof.
  eapply (apiCall_success_inv scripted example_provider "api/dns/getData"
            (js "{'fqdn':'example.com'}") (start [ok 200 example_getData])).
  reflexivity.
Defined.

Lemma Update_fetch_transport_error_witness :
  let run :=
    Update scripted example_provider example_ip
      (start [inl (errorString "context deadline exceeded");
              ok 200 example_changeRecords]) in
  exists err,
    run.1 = Returned zeroAddr (Some err) /\
    Is err (errorString "context deadline exceeded") = true /\
    drop 1 (sent run.2) = [].
Proof.
  eapply (Update_fetch_transport_error scripted example_provider example_ip
            (start [inl (errorString "context deadline exceeded");
                    ok 200 example_changeRecords])).
  - apply surjective_pairing.
  - reflexivity.
  - left. reflexivity.
Defined.

(** A gateway answers 503 with a body that reads as a success. *)
Lemma Update_fetch_status_not_ok_witness :
  let run :=
    Update scripted example_provider example_ip
      (start [ok 503 example_getData; ok 200 example_changeRecords]) in
  (exists err, run.1 = Returned zeroAddr (Some err)) /\
  drop 1 (sent run.2) = [].
Proof.
  eapply (Update_fetch_status_not_ok scripted example_provider example_ip
            (start [ok 503 example_getData; ok 200 example_changeRecords])).
  - apply surjective_pairing.
  - reflexivity.
  - simpl. lia.
Defined.

Lemma Update_fetch_undecodable_witness :
  let run :=
    Update scripted example_provider example_ip
      (start [ok 200 "<html>maintenance</html>";
              ok 200 example_changeRecords]) in
  exists err,
    run.1 = Returned zeroAddr (Some err) /\
    Is err syntaxError = true /\
    drop 1 (sent run.2) = [].
Proof.
  eapply (Update_fetch_undecodable scripted example_provider example_ip
            (start [ok 200 "<html>maintenance</html>";
                    ok 200 example_changeRecords])).
  - apply surjective_pairing.
  - reflexivity.
  - reflexivity.
  - reflexivity.
  - reflexivity.
Defined.

Lemma Update_nil_records_panic_witness :
  let run :=
    Update scripted example_provider example_ip
      (start [ok 200 (js "{'status':'success','answer':{'status':'success','result':{'fqdn':'example.com','records':null}}}");
              ok 200 example_changeRecords]) in
  run.1 = Panicked "assignment to entry in nil map" /\
  drop 1 (sent run.2) = [].
Proof.
  eapply (Update_nil_records_panic scripted example_provider example_ip
            (start [ok 200 (js "{'status':'success','answer':{'status':'success','result':{'fqdn':'example.com','records':null}}}");
                    ok 200 example_changeRecords])).
  - apply surjective_pairing.
  - reflexivity.
  - reflexivity.
  - reflexivity.
  - reflexivity.
  - reflexivity.
  - reflexivity.
  - reflexivity.
  - reflexivity.
  - reflexivity.
Defined.



Lemma Update_success_inv_witness :
  let run :=
    Update scripted example_provider example_ip
      (start [ok 200 example_getData; ok 200 example_changeRecords]) in
  run.1 = Returned example_ip None /\ length (sent run.2) = 2%nat.
Proof.
  intros run.
  assert (run = (Returned example_ip None, run.2)) as Hrun by reflexivity.
  assert (Unmarshal (T := changeRecordsResponse) EmptyString
          = inl syntaxError) as Hempty by reflexivity.
  destruct (Update_success_inv scripted example_provider example_ip
              example_ip
              (start [ok 200 example_getData; ok 200 example_changeRecords])
              run.2 syntaxError Hempty Hrun)
    as (_ & rq1 & rs1 & raw1 & cd & rq2 & rs2 & raw2 & res & Hsent & _).
  split; [reflexivity |]. rewrite Hsent. reflexivity.
Defined.

(** A gateway answers the changeRecords request with a page. *)
Lemma Update_write_undecodable_witness :
  exists err,
    (Update scripted example_provider example_ip
       (start [ok 200 example_getData; ok 502 "<html>Bad Gateway</html>"])).1
    = Returned zeroAddr (Some err) /\
    Is err syntaxError = true.
Proof.
  eapply (Update_write_undecodable scripted example_provider example_ip
            (start [ok 200 example_getData;
                    ok 502 "<html>Bad Gateway</html>"])).
  - apply surjective_pairing.
  - reflexivity.
  - reflexivity.
  - reflexivity.
Defined.

Lemma Update_error_context_witness :
  exists (err : error) (phase detail : string),
    (Update scripted example_provider example_ip
       (start [ok 404 "Not Found"])).1
    = Returned zeroAddr (Some err) /\
    In phase
       ["Couldn't marshal getData request: ";
        "Calling getData failed: ";
        "Failed unmarshalling getData response: ";
        "getData response doesn't indicate success";
        "Couldn't marshal new A entry JSON: ";
        "Couldn't marshal json: ";
        "Failed unmarshalling changeRecords response: ";
        "changeRequest response doesn't indicate success: "] /\
    Error errDomainNotValidText err = phase ++ detail.
Proof.
  eexists.
  edestruct (Update_error_context scripted example_provider example_ip
               ip4_zero (start [ok 404 "Not Found"]))
    as (phase & detail & Hin & Hmsg).
  - reflexivity.
  - exists phase, detail. split; [reflexivity |]. split; [exact Hin |].
    exact Hmsg.
Defined.

Lemma Update_full_reconciliation_witness :
  exists st' : St (list (error + Response)),
    Update scripted example_provider example_ip
      (start [ok 200 example_getData; ok 200 example_changeRecords])
    = (Returned example_ip None, st').
Proof.
  eexists.
  eapply (Update_full_reconciliation scripted example_provider example_ip
            (start [ok 200 example_getData; ok 200 example_changeRecords])).
  all: reflexivity.
Defined.

(** The blob names the subdomain; the arguments name the stripped domain
    and the owner. *)
Lemma New_identity_witness :
  exists p,
    New (js "{'login':'user','password':'secret','domain':'home.example.com'}")
        "example.com" "home" = (Some p, None) /\
    identity.Domain p = "example.com" /\
    identity.Owner p = "home" /\
    identity.BuildDomainName p = "home.example.com" /\
    target p = "home.example.com".
Proof.
  eexists. split; [reflexivity |].
  edestruct (New_identity
               (js "{'login':'user','password':'secret','domain':'home.example.com'}")
               "example.com" "home") as (HD & HO & HB & _).
  - reflexivity.
  - split; [exact HD |]. split; [exact HO |]. split; [exact HB |].
    reflexivity.
Defined.

End MoreExamples.
